(** * The conversational request loop of the promptly front-end

    A shallow embedding of the two chat components (the plain LLM chat and
    the multimodal RAG chat), of the HTTP client's response interceptor and
    of the loading button, followed by the properties of the request loop.

    The components are React function components.  Their state is the tuple
    of [useState] cells; an event handler is a function from the state to
    the next state together with the HTTP requests it issues.  An [async]
    handler is split at its [await]: the part that runs at the event, and
    the continuations that run when the promise is fulfilled or rejected.
    Handlers read the state of the render they were created in; discrete
    events (key presses, clicks) are delivered after the pending render has
    been committed, so that state is the current one. *)

From stdpp Require Import base option list strings gmap.
From Stdlib Require Import NArith Ascii.

Local Open Scope N_scope.
Set Warnings "-register-all".

(** ** JavaScript values *)

Module JS.

(** A string is a sequence of UTF-16 code units; [js] reads an ASCII
    literal as one. *)
Abbreviation jsstring := (list N).

Definition js (s : string) : jsstring :=
  N_of_ascii <$> String.list_ascii_of_string s.

(** *** String.prototype methods *)

(** WhiteSpace and LineTerminator code points, the ones [trim] removes. *)
Definition isWhiteSpace (c : N) : bool :=
  bool_decide (c ∈ [0x09; 0x0A; 0x0B; 0x0C; 0x0D; 0x20; 0xA0; 0x1680;
                    0x2028; 0x2029; 0x202F; 0x205F; 0x3000; 0xFEFF])
  || ((0x2000 <=? c) && (c <=? 0x200A)).

Fixpoint trimStart (s : jsstring) : jsstring :=
  match s with
  | c :: rest => if isWhiteSpace c then trimStart rest else s
  | [] => []
  end.

Definition trimEnd (s : jsstring) : jsstring := reverse (trimStart (reverse s)).

Definition trim (s : jsstring) : jsstring := trimEnd (trimStart s).

(** The lower-case mapping on the ASCII letters.  The mapping of the other
    letters is left out: no code point outside A-Z lower-cases to [.], [p],
    [d] or [f], so the suffix test against [.pdf], the one use of the
    method, reads the same result. *)
Definition toLowerCaseUnit (c : N) : N :=
  if (0x41 <=? c) && (c <=? 0x5A) then c + 0x20 else c.

Definition toLowerCase (s : jsstring) : jsstring := toLowerCaseUnit <$> s.

(** [s.endsWith(search)]: the last [search.length] units of [s] are
    [search]. *)
Definition endsWith (s search : jsstring) : bool :=
  let start := (length s - length search)%nat in
  bool_decide (length search ≤ length s)%nat
  && bool_decide (drop start s = search).

(** *** Loosely typed values, as a parsed JSON body or a caught exception

    A number is kept as its canonical rendering ([Number::toString]), which
    is all the components do with one besides testing it for truth. *)
Inductive value :=
  | VUndefined
  | VNull
  | VBool (b : bool)
  | VNumber (shown : jsstring)
  | VString (s : jsstring)
  | VArray (elements : list value)
  | VObject (fields : gmap jsstring value).

(** ToBoolean; on a string it is [nonempty]. *)
Definition nonempty (s : jsstring) : bool := negb (bool_decide (s = [])).

Definition truthy (v : value) : bool :=
  match v with
  | VUndefined | VNull => false
  | VBool b => b
  | VNumber shown =>
      negb (bool_decide (shown = js "0")) && negb (bool_decide (shown = js "NaN"))
  | VString s => nonempty s
  | VArray _ | VObject _ => true
  end.

(** [a || b], [a && b] and [a ?? b]. *)
Definition logical_or (a b : value) : value := if truthy a then a else b.
Definition logical_and (a b : value) : value := if truthy a then b else a.
Definition coalesce (a b : value) : value :=
  match a with
  | VUndefined | VNull => b
  | _ => a
  end.

Declare Scope js_scope.
Delimit Scope js_scope with JS.
Bind Scope js_scope with value.
Infix "||" := logical_or : js_scope.
Infix "&&" := logical_and : js_scope.
Infix "??" := coalesce (at level 50, left associativity) : js_scope.

Definition typeof_string (v : value) : value :=
  VBool (match v with VString _ => true | _ => false end).

(** [v?.key] for a key that no built-in prototype defines (every key the
    components read is of that kind): the own property of an object, and
    [undefined] on anything else. *)
Definition get (v : value) (key : string) : value :=
  match v with
  | VObject fields => default VUndefined (fields !! js key)
  | _ => VUndefined
  end.

(** [v.toString()], and ToString on a value that is not nullish.  Calling it
    throws a TypeError ([None]) on [undefined] and [null], and on an object
    whose own [toString] property shadows the inherited method: a parsed
    JSON body holds no function.  An array joins its elements with commas,
    the nullish ones rendered empty. *)
Fixpoint toString (v : value) : option jsstring :=
  match v with
  | VUndefined | VNull => None
  | VBool b => Some (js (if b then "true" else "false"))
  | VNumber shown => Some shown
  | VString s => Some s
  | VArray elements =>
      (fix join (vs : list value) : option jsstring :=
         match vs with
         | [] => Some []
         | v :: rest =>
             shown ← match v with
                     | VUndefined | VNull => Some []
                     | _ => toString v
                     end;
             tail ← join rest;
             Some (match rest with
                   | [] => shown
                   | _ => shown ++ js "," ++ tail
                   end)
         end) elements
  | VObject fields =>
      if bool_decide (is_Some (fields !! js "toString")) then None
      else Some (js "[object Object]")
  end.

(** The TypeErrors the components can raise: a call of something that is
    not a function, a property read on [null] or [undefined], and ToString
    on an object without a usable [toString].  The message of each is the
    engine's own. *)
Inductive TypeErrorReason := NotAFunction | ReadOfNullish | NoPrimitive.

(** The TypeError of a failing [v.toString()]: the method is missing on a
    nullish value and shadowed on an object; an array has the method, and
    fails in converting one of its elements. *)
Definition toString_failure (v : value) : TypeErrorReason :=
  match v with
  | VUndefined | VNull => ReadOfNullish
  | VArray _ => NoPrimitive
  | _ => NotAFunction
  end.

Class Engine := { type_error_message : TypeErrorReason → jsstring }.

Definition TypeError `{Engine} (reason : TypeErrorReason) : value :=
  VObject {[ js "message" := VString (type_error_message reason) ]}.

End JS.

Import JS.

(** ** The HTTP client (utils/axios.ts) *)

Module Axios.

(** Of a response the components read the parsed body only. *)
Record AxiosResponse := { data : value }.

(** A failure carries the response when the server answered, and none when
    the request never got one. *)
Record AxiosError := { response : option AxiosResponse }.

(** [error.response && error.response.data]: a response object is truthy. *)
Definition response_data (error : AxiosError) : value :=
  match response error with
  | None => VUndefined
  | Some res => data res
  end.

(** The response interceptor's rejection handler: what a component's
    [catch] receives. *)
Definition interceptor_rejected (error : AxiosError) : value :=
  (response_data error || VString (js "Something went wrong"))%JS.

End Axios.

Import Axios.

(** ** The loading button (components/ui/loading-button) *)

Module LoadingButton.

(** [<Button disabled={loading} ... {...props}>]: the rest props are spread
    after [disabled], so a [disabled] passed by the caller replaces the one
    computed from [loading]. *)
Definition disabled (loading : bool) (props_disabled : option bool) : bool :=
  default loading props_disabled.

End LoadingButton.

(** ** The chat component *)

Module LLMChat.

Inductive ChatRole := system | user | assistant.

Record ChatMessage := { id : jsstring; role : ChatRole; content : jsstring }.

(** The [{ role, content }] entries of a request body. *)
Record RequestMessage := { req_role : ChatRole; req_content : jsstring }.

(** [GET /api/llm/models], and [POST /api/llm/chat] with the body
    [{ model, messages, options: {} }]. *)
Inductive Request :=
  | GetModels
  | PostChat (model : value) (messages : list RequestMessage).

Record State := {
  availableModels : list value;
  model : value;
  systemPrompt : jsstring;
  messages : list ChatMessage;
  draft : jsstring;
  loading : bool;
  error : value
}.

(** The [useState] initial values, the state of the first render. *)
Definition initial : State := {|
  availableModels := [];
  model := VString [];
  systemPrompt := js "You are a helpful assistant.";
  messages := [];
  draft := [];
  loading := false;
  error := VString []
|}.

Definition setAvailableModels (v : list value) (s : State) : State :=
  {| availableModels := v; model := model s; systemPrompt := systemPrompt s;
     messages := messages s; draft := draft s; loading := loading s;
     error := error s |}.

Definition setModel (v : value) (s : State) : State :=
  {| availableModels := availableModels s; model := v;
     systemPrompt := systemPrompt s; messages := messages s; draft := draft s;
     loading := loading s; error := error s |}.

Definition setSystemPrompt (v : jsstring) (s : State) : State :=
  {| availableModels := availableModels s; model := model s;
     systemPrompt := v; messages := messages s; draft := draft s;
     loading := loading s; error := error s |}.

(** [setMessages] takes an updater, applied to the state current at the
    time of the update. *)
Definition setMessages (f : list ChatMessage → list ChatMessage) (s : State) : State :=
  {| availableModels := availableModels s; model := model s;
     systemPrompt := systemPrompt s; messages := f (messages s);
     draft := draft s; loading := loading s; error := error s |}.

Definition setDraft (v : jsstring) (s : State) : State :=
  {| availableModels := availableModels s; model := model s;
     systemPrompt := systemPrompt s; messages := messages s; draft := v;
     loading := loading s; error := error s |}.

Definition setLoading (v : bool) (s : State) : State :=
  {| availableModels := availableModels s; model := model s;
     systemPrompt := systemPrompt s; messages := messages s; draft := draft s;
     loading := v; error := error s |}.

Definition setError (v : value) (s : State) : State :=
  {| availableModels := availableModels s; model := model s;
     systemPrompt := systemPrompt s; messages := messages s; draft := draft s;
     loading := loading s; error := v |}.

(** The memoised request prefix: [base] is filled by successive pushes. *)
Definition requestMessages (s : State) : list RequestMessage :=
  let base := [] in
  let base :=
    if nonempty (trim (systemPrompt s))
    then base ++ [{| req_role := system; req_content := trim (systemPrompt s) |}]
    else base in
  foldl (λ base m, base ++ [{| req_role := role m; req_content := content m |}])
        base (messages s).

(** The message shown for a caught value [e]. *)
Definition failure_message (e : value) : value :=
  ((typeof_string e && e)
   || get e "error"
   || get (get e "details") "error"
   || get (get e "details") "detail"
   || get e "message"
   || VString (js "Failed to send message"))%JS.

Definition send_catch (e : value) (s : State) : State :=
  setError (failure_message e) s.

Definition send_finally (s : State) : State := setLoading false s.

(** [send], up to its [await].  [makeId] is the identifier drawn for the
    user message. *)
Definition send (makeId : jsstring) (s : State) : State * list Request :=
  let text := trim (draft s) in
  if negb (nonempty text) || loading s then (s, [])
  else
    let s1 := setError (VString []) s in
    let s2 := setLoading true s1 in
    let userMessage := {| id := makeId; role := user; content := text |} in
    let s3 := setMessages (λ prev, prev ++ [userMessage]) s2 in
    let s4 := setDraft [] s3 in
    (s4, [PostChat (model s || VUndefined)%JS
                   (requestMessages s
                    ++ [{| req_role := user; req_content := text |}])]).

(** [send] resumed with the response [res]. *)
Definition send_fulfilled `{Engine} (makeId : jsstring) (res : AxiosResponse)
    (s : State) : State :=
  match toString (get (data res) "content" ?? VString [])%JS with
  | Some content =>
      let assistantMessage :=
        {| id := makeId; role := assistant;
           content := if nonempty content then content
                      else js "(empty response)" |} in
      send_finally (setMessages (λ prev, prev ++ [assistantMessage]) s)
  | None =>
      let thrown :=
        TypeError (toString_failure (get (data res) "content" ?? VString [])%JS) in
      send_finally (send_catch thrown s)
  end.

(** [send] resumed with the rejection of the request. *)
Definition send_rejected (error : AxiosError) (s : State) : State :=
  send_finally (send_catch (interceptor_rejected error) s).

Definition clearChat (s : State) : State :=
  setError (VString []) (setMessages (λ _, []) s).

(** The first render, whose effect calls [loadModels]. *)
Definition mount : State * list Request := (initial, [GetModels]).

(** [loadModels] runs once, from that effect: the [model] it reads is the
    one of the first render. *)
Definition model_at_mount : value := model mount.1.

Definition loadModels_catch (mounted : bool) (s : State) : State :=
  if negb mounted then s else setAvailableModels [] s.

(** [loadModels] resumed with the response.  [data?.models] reads a
    property the response object does not have; [models.map] throws when
    [models] is not an array. *)
Definition loadModels_fulfilled (mounted : bool) (res : AxiosResponse)
    (s : State) : State :=
  match (get (data res) "models" ?? VUndefined ?? VArray [])%JS with
  | VArray models =>
      let names := filter (λ n, truthy n) ((λ m, get m "name") <$> models) in
      if negb mounted then s
      else
        let s1 := setAvailableModels names s in
        if negb (truthy model_at_mount) && bool_decide (length names ≠ 0%nat)
        then setModel (default VUndefined (head names)) s1
        else s1
  | _ => loadModels_catch mounted s
  end.

(** *** Events

    The text area calls [send] on Enter; the send button is a loading
    button without a [disabled] of its own; the model selector is disabled
    while no model is listed. *)
Inductive Event :=
  | DraftChange (v : jsstring)
  | SystemPromptChange (v : jsstring)
  | ModelChange (v : jsstring)
  | DraftEnter (makeId : jsstring)
  | SendClick (makeId : jsstring)
  | ClearClick
  | ChatFulfilled (makeId : jsstring) (res : AxiosResponse)
  | ChatRejected (error : AxiosError)
  | ModelsFulfilled (mounted : bool) (res : AxiosResponse)
  | ModelsRejected (mounted : bool).

Definition send_button_disabled (s : State) : bool :=
  LoadingButton.disabled (loading s) None.

Definition handle `{Engine} (ev : Event) (s : State) : State * list Request :=
  match ev with
  | DraftChange v => (setDraft v s, [])
  | SystemPromptChange v => (setSystemPrompt v s, [])
  | ModelChange v =>
      (if bool_decide (length (availableModels s) = 0%nat) then s
       else setModel (VString v) s, [])
  | DraftEnter makeId => send makeId s
  | SendClick makeId => if send_button_disabled s then (s, []) else send makeId s
  | ClearClick => (clearChat s, [])
  | ChatFulfilled makeId res => (send_fulfilled makeId res s, [])
  | ChatRejected error => (send_rejected error s, [])
  | ModelsFulfilled mounted res => (loadModels_fulfilled mounted res s, [])
  | ModelsRejected mounted => (loadModels_catch mounted s, [])
  end.

(** A run threads the state through the events and collects the requests. *)
Fixpoint run `{Engine} (evs : list Event) (s : State) : State * list Request :=
  match evs with
  | [] => (s, [])
  | ev :: rest =>
      let '(s1, out1) := handle ev s in
      let '(s2, out2) := run rest s1 in
      (s2, out1 ++ out2)
  end.

End LLMChat.

(** ** The multimodal RAG component *)

Module MultimodalRAG.

Inductive Role := user | assistant.

(** The assistant's [content] and [context] are taken from the response as
    they come; a user message has no [context]. *)
Record ChatMessage := {
  id : jsstring;
  role : Role;
  content : value;
  context : option value
}.

(** A file chosen in the file input. *)
Record File := { name : jsstring; bytes : list N }.

(** [POST /api/llm/rag/process] with a form holding the one [file] entry,
    and [POST /api/llm/rag/query] with the body [{ question }]. *)
Inductive Request :=
  | PostRagProcess (file : File)
  | PostRagQuery (question : jsstring).

Record State := {
  messages : list ChatMessage;
  draft : jsstring;
  loading : bool;
  uploading : bool;
  error : value;
  uploadSuccess : jsstring;
  processedFiles : list value
}.

Definition initial : State := {|
  messages := [];
  draft := [];
  loading := false;
  uploading := false;
  error := VString [];
  uploadSuccess := [];
  processedFiles := []
|}.

Definition setMessages (f : list ChatMessage → list ChatMessage) (s : State) : State :=
  {| messages := f (messages s); draft := draft s; loading := loading s;
     uploading := uploading s; error := error s;
     uploadSuccess := uploadSuccess s; processedFiles := processedFiles s |}.

Definition setDraft (v : jsstring) (s : State) : State :=
  {| messages := messages s; draft := v; loading := loading s;
     uploading := uploading s; error := error s;
     uploadSuccess := uploadSuccess s; processedFiles := processedFiles s |}.

Definition setLoading (v : bool) (s : State) : State :=
  {| messages := messages s; draft := draft s; loading := v;
     uploading := uploading s; error := error s;
     uploadSuccess := uploadSuccess s; processedFiles := processedFiles s |}.

Definition setUploading (v : bool) (s : State) : State :=
  {| messages := messages s; draft := draft s; loading := loading s;
     uploading := v; error := error s;
     uploadSuccess := uploadSuccess s; processedFiles := processedFiles s |}.

Definition setError (v : value) (s : State) : State :=
  {| messages := messages s; draft := draft s; loading := loading s;
     uploading := uploading s; error := v;
     uploadSuccess := uploadSuccess s; processedFiles := processedFiles s |}.

Definition setUploadSuccess (v : jsstring) (s : State) : State :=
  {| messages := messages s; draft := draft s; loading := loading s;
     uploading := uploading s; error := error s;
     uploadSuccess := v; processedFiles := processedFiles s |}.

Definition setProcessedFiles (f : list value → list value) (s : State) : State :=
  {| messages := messages s; draft := draft s; loading := loading s;
     uploading := uploading s; error := error s;
     uploadSuccess := uploadSuccess s; processedFiles := f (processedFiles s) |}.

(** [handleFileUpload], up to its [await].  [files] is the file list of the
    input, [None] when the input has none. *)
Definition handleFileUpload (files : option (list File)) (s : State)
    : State * list Request :=
  match files with
  | None | Some [] => (s, [])
  | Some (file :: _) =>
      if negb (endsWith (toLowerCase (name file)) (js ".pdf"))
      then (setError (VString (js "Please upload a PDF file")) s, [])
      else
        let s1 := setError (VString []) s in
        let s2 := setUploadSuccess [] s1 in
        let s3 := setUploading true s2 in
        (s3, [PostRagProcess file])
  end.

Definition handleFileUpload_catch (e : value) (s : State) : State :=
  setError ((typeof_string e && e)
            || get e "error"
            || get e "details"
            || get e "message"
            || VString (js "Failed to upload and process PDF"))%JS s.

Definition handleFileUpload_finally (s : State) : State := setUploading false s.

(** [handleFileUpload] resumed with the response.  [res.data.filename]
    throws on a nullish body, and the template literal on a name that has
    no rendering, before either setter is reached. *)
Definition handleFileUpload_fulfilled `{Engine} (file : File)
    (res : AxiosResponse) (s : State) : State :=
  match data res with
  | VUndefined | VNull =>
      handleFileUpload_finally (handleFileUpload_catch (TypeError ReadOfNullish) s)
  | body =>
      let filename := (get body "filename" || VString (name file))%JS in
      match toString filename with
      | Some shown =>
          let s1 := setUploadSuccess (js "Successfully processed: " ++ shown) s in
          let s2 := setProcessedFiles (λ prev, prev ++ [filename]) s1 in
          handleFileUpload_finally s2
      | None =>
          handleFileUpload_finally (handleFileUpload_catch (TypeError NoPrimitive) s)
      end
  end.

Definition handleFileUpload_rejected (error : AxiosError) (s : State) : State :=
  handleFileUpload_finally (handleFileUpload_catch (interceptor_rejected error) s).

Definition failure_message (e : value) : value :=
  ((typeof_string e && e)
   || get e "error"
   || get (get e "details") "error"
   || get (get e "details") "detail"
   || get e "message"
   || VString (js "Failed to send message"))%JS.

Definition send_catch (e : value) (s : State) : State :=
  setError (failure_message e) s.

Definition send_finally (s : State) : State := setLoading false s.

(** [send], up to its [await]. *)
Definition send (makeId : jsstring) (s : State) : State * list Request :=
  let text := trim (draft s) in
  if negb (nonempty text) || loading s then (s, [])
  else
    let s1 := setError (VString []) s in
    let s2 := setLoading true s1 in
    let userMessage :=
      {| id := makeId; role := user; content := VString text; context := None |} in
    let s3 := setMessages (λ prev, prev ++ [userMessage]) s2 in
    let s4 := setDraft [] s3 in
    (s4, [PostRagQuery text]).

(** [send] resumed with the response: nothing in this branch throws. *)
Definition send_fulfilled (makeId : jsstring) (res : AxiosResponse)
    (s : State) : State :=
  let answer := (get (data res) "answer" || VString (js "(empty response)"))%JS in
  let context := (get (data res) "context" || VObject ∅)%JS in
  let assistantMessage :=
    {| id := makeId; role := assistant; content := answer;
       context := Some context |} in
  send_finally (setMessages (λ prev, prev ++ [assistantMessage]) s).

Definition send_rejected (error : AxiosError) (s : State) : State :=
  send_finally (send_catch (interceptor_rejected error) s).

Definition clearChat (s : State) : State :=
  setError (VString []) (setMessages (λ _, []) s).

(** *** Events

    The footer's text area is disabled while either flag is up; its send
    button passes [disabled={uploading}] to the loading button; the file
    input is disabled while uploading.  The [Textarea] and [Button]
    primitives hand [disabled] on to the element they render, and a
    disabled control delivers no input, no key press and no click. *)
Definition textarea_disabled (s : State) : bool := loading s || uploading s.

Definition send_button_disabled (s : State) : bool :=
  LoadingButton.disabled (loading s) (Some (uploading s)).

Definition file_input_disabled (s : State) : bool := uploading s.

Inductive Event :=
  | DraftChange (v : jsstring)
  | DraftEnter (makeId : jsstring)
  | SendClick (makeId : jsstring)
  | ClearClick
  | FileChange (files : option (list File))
  | UploadFulfilled (file : File) (res : AxiosResponse)
  | UploadRejected (error : AxiosError)
  | QueryFulfilled (makeId : jsstring) (res : AxiosResponse)
  | QueryRejected (error : AxiosError).

Definition handle `{Engine} (ev : Event) (s : State) : State * list Request :=
  match ev with
  | DraftChange v => (if textarea_disabled s then s else setDraft v s, [])
  | DraftEnter makeId => if textarea_disabled s then (s, []) else send makeId s
  | SendClick makeId => if send_button_disabled s then (s, []) else send makeId s
  | ClearClick => (clearChat s, [])
  | FileChange files =>
      if file_input_disabled s then (s, []) else handleFileUpload files s
  | UploadFulfilled file res => (handleFileUpload_fulfilled file res s, [])
  | UploadRejected error => (handleFileUpload_rejected error s, [])
  | QueryFulfilled makeId res => (send_fulfilled makeId res s, [])
  | QueryRejected error => (send_rejected error s, [])
  end.

Fixpoint run `{Engine} (evs : list Event) (s : State) : State * list Request :=
  match evs with
  | [] => (s, [])
  | ev :: rest =>
      let '(s1, out1) := handle ev s in
      let '(s2, out2) := run rest s1 in
      (s2, out1 ++ out2)
  end.

End MultimodalRAG.

(** ** The specification's vocabulary *)

Module Spec.

(** A submission is accepted when its trimmed text is not empty and no
    request of the component is pending. *)
Definition accepted (draft : jsstring) (pending : bool) : Prop :=
  trim draft ≠ [] ∧ pending = false.

(** The first available of a list of candidates in priority order, a
    candidate being available when it counts as true, and the fallback when
    none is. *)
Fixpoint first_available (candidates : list value) (fallback : value) : value :=
  match candidates with
  | [] => fallback
  | c :: rest => if truthy c then c else first_available rest fallback
  end.

(** The rejected payload itself when it is a string. *)
Definition when_string (e : value) : value :=
  match e with
  | VString _ => e
  | _ => VUndefined
  end.

(** Payload, [error], [details.error], [details.detail], [message]. *)
Definition error_candidates (e : value) : list value :=
  [ when_string e;
    get e "error";
    get (get e "details") "error";
    get (get e "details") "detail";
    get e "message" ].

(** [c] is the letter [d] in either case, [d] being given in lower case. *)
Definition same_letter (c d : N) : Prop :=
  c = d ∨ (0x61 ≤ d ∧ d ≤ 0x7A ∧ c + 0x20 = d).

(** [name] ends in [suffix] under case-insensitive comparison. *)
Definition ends_with_ci (name suffix : jsstring) : Prop :=
  ∃ stem ext, name = stem ++ ext ∧ Forall2 same_letter ext suffix.

End Spec.

(** ** Traces and request bodies, as the claims speak of them *)

Module Trace.

(** The events that settle a pending chat request. *)
Definition chat_settles (ev : LLMChat.Event) : bool :=
  match ev with
  | LLMChat.ChatFulfilled _ _ | LLMChat.ChatRejected _ => true
  | _ => false
  end.

Definition query_settles (ev : MultimodalRAG.Event) : bool :=
  match ev with
  | MultimodalRAG.QueryFulfilled _ _ | MultimodalRAG.QueryRejected _ => true
  | _ => false
  end.

(** The requests of a run that are queries, not uploads. *)
Definition is_query (q : MultimodalRAG.Request) : bool :=
  match q with
  | MultimodalRAG.PostRagQuery _ => true
  | MultimodalRAG.PostRagProcess _ => false
  end.

(** The conversation turns a request of the multimodal component conveys:
    a query holds the question, and nothing else. *)
Definition conveyed (q : MultimodalRAG.Request)
    : list (MultimodalRAG.Role * value) :=
  match q with
  | MultimodalRAG.PostRagQuery question =>
      [(MultimodalRAG.user, VString question)]
  | MultimodalRAG.PostRagProcess _ => []
  end.

(** The entry a system prompt contributes to a chat request. *)
Definition system_entry (systemPrompt : jsstring) : list LLMChat.RequestMessage :=
  if decide (trim systemPrompt = []) then []
  else [ {| LLMChat.req_role := LLMChat.system;
            LLMChat.req_content := trim systemPrompt |} ].

(** A transcript message as a request entry. *)
Definition entry (m : LLMChat.ChatMessage) : LLMChat.RequestMessage :=
  {| LLMChat.req_role := LLMChat.role m;
     LLMChat.req_content := LLMChat.content m |}.

(** The history invariant read on the multimodal component: the accepted
    submission's request conveys the prior transcript, then the new user
    message. *)
Definition query_conveys_transcript : Prop :=
  ∀ (r : MultimodalRAG.State) (makeId : jsstring),
    Spec.accepted (MultimodalRAG.draft r) (MultimodalRAG.loading r) →
    ∃ q, (MultimodalRAG.send makeId r).2 = [q]
       ∧ conveyed q =
           ((λ m, (MultimodalRAG.role m, MultimodalRAG.content m))
              <$> MultimodalRAG.messages r)
           ++ [(MultimodalRAG.user, VString (trim (MultimodalRAG.draft r)))].

(** Submission stays usable during an upload: with an upload in flight and
    no chat request pending, submitting a non-blank draft (by Enter or by
    the button) issues a request. *)
Definition submission_usable_while_uploading : Prop :=
  ∀ `(!Engine) (r : MultimodalRAG.State) (makeId : jsstring),
    MultimodalRAG.uploading r = true →
    Spec.accepted (MultimodalRAG.draft r) (MultimodalRAG.loading r) →
    (MultimodalRAG.handle (MultimodalRAG.DraftEnter makeId) r).2 ≠ []
    ∨ (MultimodalRAG.handle (MultimodalRAG.SendClick makeId) r).2 ≠ [].

End Trace.

(** ** Sample states, responses and failures *)

Module Sample.

Definition v8 : Engine :=
  {| type_error_message reason :=
       match reason with
       | NotAFunction => js "(intermediate value).toString is not a function"
       | ReadOfNullish => js "Cannot read properties of null (reading 'filename')"
       | NoPrimitive => js "Cannot convert object to primitive value"
       end |}.

Definition id1 : jsstring := js "3f2c-01".
Definition id2 : jsstring := js "3f2c-02".

(** A chat with one exchange behind it and a draft typed. *)
Definition chat : LLMChat.State := {|
  LLMChat.availableModels := [VString (js "llama3")];
  LLMChat.model := VString (js "llama3");
  LLMChat.systemPrompt := js " You are a helpful assistant. ";
  LLMChat.messages :=
    [ {| LLMChat.id := js "a"; LLMChat.role := LLMChat.user;
         LLMChat.content := js "hi" |};
      {| LLMChat.id := js "b"; LLMChat.role := LLMChat.assistant;
         LLMChat.content := js "hello, how can I help?" |} ];
  LLMChat.draft := js "  hello ";
  LLMChat.loading := false;
  LLMChat.error := VString []
|}.

Definition rag : MultimodalRAG.State := {|
  MultimodalRAG.messages :=
    [ {| MultimodalRAG.id := js "a"; MultimodalRAG.role := MultimodalRAG.user;
         MultimodalRAG.content := VString (js "what is in the file?");
         MultimodalRAG.context := None |};
      {| MultimodalRAG.id := js "b";
         MultimodalRAG.role := MultimodalRAG.assistant;
         MultimodalRAG.content := VString (js "a table");
         MultimodalRAG.context := Some (VObject ∅) |} ];
  MultimodalRAG.draft := js " and the images? ";
  MultimodalRAG.loading := false;
  MultimodalRAG.uploading := false;
  MultimodalRAG.error := VString [];
  MultimodalRAG.uploadSuccess := [];
  MultimodalRAG.processedFiles := []
|}.

(** The same with an upload in flight. *)
Definition rag_uploading : MultimodalRAG.State :=
  MultimodalRAG.setUploading true rag.

Definition no_response : AxiosError := {| response := None |}.

Definition empty_body : AxiosError :=
  {| response := Some {| data := VString [] |} |}.

Definition quota_exceeded : AxiosError :=
  {| response :=
       Some {| data := VObject {[ js "error" := VString (js "quota exceeded") ]} |} |}.

Definition empty_content : AxiosResponse :=
  {| data := VObject {[ js "content" := VString [] ]} |}.

Definition answered : AxiosResponse :=
  {| data := VObject (<[ js "content" := VString (js "42") ]>
                        {[ js "answer" := VString (js "42") ]}) |}.

Definition model_list : AxiosResponse :=
  {| data :=
       VObject {[ js "models" :=
         VArray [ VObject {[ js "size" := VNumber (js "7") ]};
                  VObject {[ js "name" := VString (js "llama3") ]};
                  VObject {[ js "name" := VString [] ]};
                  VObject {[ js "name" := VString (js "mistral") ]} ] ]} |}.

Definition report_txt : MultimodalRAG.File :=
  {| MultimodalRAG.name := js "report.txt"; MultimodalRAG.bytes := [0x68; 0x69] |}.

Definition report_PDF : MultimodalRAG.File :=
  {| MultimodalRAG.name := js "Report.PDF";
     MultimodalRAG.bytes := [0x25; 0x50; 0x44; 0x46] |}.

End Sample.

(** ** Children of an element *)

Module React.

(** What an element displays, when the render reaches it and goes through. *)
Inductive Rendered (A : Type) :=
  | Absent
  | Shown (content : A)
  | RenderThrows.

Arguments Absent {A}.
Arguments Shown {A} content.
Arguments RenderThrows {A}.

(** A value given as a child: a string or a number is text; booleans,
    [null] and [undefined] display nothing; an array gives its elements as
    children, in order; a plain object is not a valid child, and the render
    throws ([None]). *)
Fixpoint child (v : value) : option (list jsstring) :=
  match v with
  | VUndefined | VNull | VBool _ => Some []
  | VNumber shown => Some [shown]
  | VString s => Some [s]
  | VArray elements =>
      (fix children (vs : list value) : option (list jsstring) :=
         match vs with
         | [] => Some []
         | v :: rest =>
             texts ← child v;
             more ← children rest;
             Some (texts ++ more)
         end) elements
  | VObject _ => None
  end.

(** An element whose one child is [v]. *)
Definition element (v : value) : Rendered (list jsstring) :=
  match child v with
  | Some texts => Shown texts
  | None => RenderThrows
  end.

End React.

(** ** What the components put on screen *)

Module LLMChatView.

Import LLMChat.

Definition roleLabel (role : ChatRole) : jsstring :=
  match role with
  | user => js "You"
  | assistant => js "Assistant"
  | system => js "System"
  end.

Definition roleBubbleClass (role : ChatRole) : jsstring :=
  match role with
  | user => js "bg-primary text-primary-foreground"
  | assistant => js "bg-muted text-foreground"
  | system => js "bg-accent text-foreground"
  end.

(** [error ? <div>{error}</div> : null]: the banner and its child. *)
Definition error_banner (s : State) : React.Rendered (list jsstring) :=
  if truthy (error s) then React.element (error s) else React.Absent.

(** The bubble of a transcript message. *)
Record Bubble := {
  key : jsstring;
  className : jsstring;
  label : jsstring;
  text : jsstring
}.

Definition bubble (m : ChatMessage) : Bubble := {|
  key := id m;
  className :=
    js "max-w-[85%] rounded-lg px-3 py-2 text-sm " ++ roleBubbleClass (role m)
    ++ js " "
    ++ (match role m with user => js "self-end" | _ => js "self-start" end);
  label := roleLabel (role m);
  text := content m
|}.

(** The conversation panel: a hint while the transcript is empty, and else
    the bubbles, followed by the "Thinking" bubble while loading. *)
Inductive Panel :=
  | EmptyHint
  | Conversation (bubbles : list Bubble) (thinking : bool).

Definition panel (s : State) : Panel :=
  if bool_decide (length (messages s) = 0%nat) then EmptyHint
  else Conversation (bubble <$> messages s) (loading s).



End LLMChatView.

Module MultimodalRAGView.

Import MultimodalRAG.

Definition error_banner (s : State) : React.Rendered (list jsstring) :=
  if truthy (error s) then React.element (error s) else React.Absent.

(** [uploadSuccess && <div>{uploadSuccess}</div>]. *)
Definition success_notice (s : State) : option jsstring :=
  if nonempty (uploadSuccess s) then Some (uploadSuccess s) else None.


(** The panel shows its hint in place of the conversation while the
    transcript is empty; the loading dots belong to the conversation. *)
Definition empty_hint (s : State) : bool :=
  bool_decide (length (messages s) = 0%nat).

Definition loading_dots (s : State) : bool :=
  if empty_hint s then false else loading s.

End MultimodalRAGView.

(** ** The role guard (auth/guard/role-based-guard.tsx) *)

Module RoleBasedGuard.

Inductive Rendered := Children | PermissionDenied | Nothing.

(** [roles.includes(currentRole)] on an array of strings: only a string
    equal to one of them is included. *)
Definition includes (roles : list jsstring) (currentRole : value) : bool :=
  match currentRole with
  | VString role => bool_decide (role ∈ roles)
  | _ => false
  end.

(** [user] is the user of the auth context, [null] or an object; the props
    [hasContent] and [roles] are optional. *)
Definition RoleBasedGuard (user : value) (hasContent : option bool)
    (roles : option (list jsstring)) : Rendered :=
  let currentRole := get user "role" in
  match roles with
  | Some roles =>
      if negb (includes roles currentRole)
      then (if default false hasContent then PermissionDenied else Nothing)
      else Children
  | None => Children
  end.

End RoleBasedGuard.

(** ** The theme provider (theme/theme-provider.tsx) *)

Module ThemeProvider.

(** The themes the toggle offers. *)
Inductive Theme := light | dark | blue.

Definition theme_name (t : Theme) : jsstring :=
  match t with
  | light => js "light"
  | dark => js "dark"
  | blue => js "blue"
  end.

(** The [theme] cell, the class list of the document element, and the
    number of timeouts set and not yet run. *)
Record State := {
  theme : Theme;
  classList : gset jsstring;
  timeouts : nat
}.

Definition blockTransitions (s : State) : State :=
  {| theme := theme s;
     classList := {[ js "block-transitions" ]} ∪ classList s;
     timeouts := S (timeouts s) |}.

(** The callback of the timeout set by [blockTransitions]. *)
Definition timeout (s : State) : State :=
  {| theme := theme s;
     classList := classList s ∖ {[ js "block-transitions" ]};
     timeouts := pred (timeouts s) |}.

Definition applyTheme (newTheme : Theme) (s : State) : State :=
  let s1 := blockTransitions s in
  let classes := classList s1 ∖ {[ js "dark"; js "blue" ]} in
  let classes :=
    match newTheme with
    | light => classes
    | _ => {[ theme_name newTheme ]} ∪ classes
    end in
  {| theme := newTheme; classList := classes; timeouts := timeouts s1 |}.

End ThemeProvider.

(** ** The login view (sections/auth/login-view.tsx) *)

Module LoginView.

(** The fields of the form and the [errorMsg] cell. *)
Record State := { email : jsstring; password : jsstring; errorMsg : value }.

Definition defaultValues : jsstring * jsstring :=
  (js "demo@boilerplate.app", js "demo1234").

Definition initial : State :=
  {| email := defaultValues.1; password := defaultValues.2;
     errorMsg := VString [] |}.

Definition reset (s : State) : State :=
  {| email := defaultValues.1; password := defaultValues.2;
     errorMsg := errorMsg s |}.

Definition setErrorMsg (v : value) (s : State) : State :=
  {| email := email s; password := password s; errorMsg := v |}.

(** The [catch] of [onSubmit]: the form is reset, then the message is read
    off the caught value.  [error.message] throws on [null] and
    [undefined], after the reset and before the message is set. *)
Definition onSubmit_catch (error : value) (s : State) : State :=
  let s1 := reset s in
  match error with
  | VString _ => setErrorMsg error s1
  | VUndefined | VNull => s1
  | _ => setErrorMsg (get error "message") s1
  end.

(** [!!errorMsg && <h1>{errorMsg}</h1>]. *)
Definition error_heading (s : State) : React.Rendered (list jsstring) :=
  if truthy (errorMsg s) then React.element (errorMsg s) else React.Absent.

End LoginView.

(** ** Counting over runs *)

Module Runs.

Definition chat_settlements (evs : list LLMChat.Event) : nat :=
  length (filter (λ ev, Trace.chat_settles ev) evs).

Definition query_settlements (evs : list MultimodalRAG.Event) : nat :=
  length (filter (λ ev, Trace.query_settles ev) evs).

(** The requests a component may still issue before a settlement: one
    when idle, none when pending. *)
Definition allowance (pending : bool) : nat := if pending then 0%nat else 1%nat.

(** A text made of white space only. *)
Definition blank (text : jsstring) : Prop :=
  Forall (λ c, isWhiteSpace c = true) text.

(** Neither end of the text is white space. *)
Definition trimmed (text : jsstring) : Prop :=
  (∀ c, head text = Some c → isWhiteSpace c = false)
  ∧ (∀ c, last text = Some c → isWhiteSpace c = false).

Definition is_clear (ev : LLMChat.Event) : bool :=
  match ev with
  | LLMChat.ClearClick => true
  | _ => false
  end.

Definition is_rag_clear (ev : MultimodalRAG.Event) : bool :=
  match ev with
  | MultimodalRAG.ClearClick => true
  | _ => false
  end.

Definition is_models_fulfilled (ev : LLMChat.Event) : bool :=
  match ev with
  | LLMChat.ModelsFulfilled _ _ => true
  | _ => false
  end.

(** The events of the upload: choosing a file, and the settlement. *)
Definition is_upload (ev : MultimodalRAG.Event) : bool :=
  match ev with
  | MultimodalRAG.FileChange _ | MultimodalRAG.UploadFulfilled _ _
  | MultimodalRAG.UploadRejected _ => true
  | _ => false
  end.

(** The events that settle a pending upload, and the requests that are
    uploads. *)
Definition upload_settles (ev : MultimodalRAG.Event) : bool :=
  match ev with
  | MultimodalRAG.UploadFulfilled _ _ | MultimodalRAG.UploadRejected _ => true
  | _ => false
  end.

Definition upload_settlements (evs : list MultimodalRAG.Event) : nat :=
  length (filter (λ ev, upload_settles ev) evs).

Definition is_process (q : MultimodalRAG.Request) : bool :=
  match q with
  | MultimodalRAG.PostRagProcess _ => true
  | MultimodalRAG.PostRagQuery _ => false
  end.

(** The candidates of the upload's failure message: payload, [error],
    [details], [message]. *)
Definition upload_error_candidates (e : value) : list value :=
  [ Spec.when_string e; get e "error"; get e "details"; get e "message" ].

End Runs.

(** ** Facts about the values *)

Section js_facts.

Lemma nonempty_true (s : jsstring) : nonempty s = true ↔ s ≠ [].
Proof.
  unfold nonempty. rewrite negb_true_iff, bool_decide_eq_false. done.
Qed.

Lemma nonempty_false (s : jsstring) : nonempty s = false ↔ s = [].
Proof.
  unfold nonempty. rewrite negb_false_iff, bool_decide_eq_true. done.
Qed.

Lemma truthy_logical_or (a b : value) :
  truthy (a || b)%JS = truthy a || truthy b.
Proof. unfold logical_or. destruct (truthy a) eqn:Ha; simpl; done. Qed.

Lemma logical_or_truthy_r (a b : value) :
  truthy b = true → truthy (a || b)%JS = true.
Proof. intros Hb. rewrite truthy_logical_or, Hb. apply orb_true_r. Qed.

(** A truthy value is not the empty string. *)
Lemma truthy_not_empty_string (v : value) :
  truthy v = true → v ≠ VString [].
Proof. intros Hv ->. discriminate Hv. Qed.

Lemma endsWith_suffix (s search : jsstring) :
  endsWith s search = true ↔ search `suffix_of` s.
Proof.
  unfold endsWith. rewrite andb_true_iff, !bool_decide_eq_true. split.
  - intros [_ Hdrop]. exists (take (length s - length search) s).
    rewrite <- Hdrop at 2. symmetry. apply take_drop.
  - intros [k ->]. rewrite length_app. split; [lia|].
    replace (length k + length search - length search)%nat
      with (length k) by lia.
    apply drop_app_length.
Qed.

End js_facts.

Section case_insensitive_suffix.

Lemma toLowerCaseUnit_same_letter (c : N) :
  Spec.same_letter c (toLowerCaseUnit c).
Proof.
  unfold Spec.same_letter, toLowerCaseUnit.
  destruct (0x41 <=? c) eqn:Hlo; [destruct (c <=? 0x5A) eqn:Hhi|]; simpl;
    [|by left..].
  apply N.leb_le in Hlo, Hhi. right. lia.
Qed.

Lemma same_letter_toLowerCaseUnit (c d : N) :
  toLowerCaseUnit d = d → Spec.same_letter c d → toLowerCaseUnit c = d.
Proof.
  intros Hd [->|(Hlo & Hhi & Hc)]; [done|].
  unfold toLowerCaseUnit.
  replace (0x41 <=? c) with true by (symmetry; apply N.leb_le; lia).
  replace (c <=? 0x5A) with true by (symmetry; apply N.leb_le; lia).
  done.
Qed.

Lemma toLowerCase_Forall2 (ext : jsstring) :
  Forall2 Spec.same_letter ext (toLowerCase ext).
Proof.
  induction ext as [|c ext IH]; constructor;
    [apply toLowerCaseUnit_same_letter | exact IH].
Qed.

Lemma Forall2_toLowerCase (ext suffix : jsstring) :
  toLowerCase suffix = suffix →
  Forall2 Spec.same_letter ext suffix → toLowerCase ext = suffix.
Proof.
  intros Hlow Hsame. revert Hlow.
  induction Hsame as [|c d ext suffix Hcd _ IH]; [done|].
  unfold toLowerCase. rewrite !fmap_cons. intros [= Hd Hrest].
  f_equal; [by apply same_letter_toLowerCaseUnit | by apply IH].
Qed.

(** The test of the source against the wording of the specification, for
    a suffix written in lower case. *)
Lemma endsWith_toLowerCase (name suffix : jsstring) :
  toLowerCase suffix = suffix →
  endsWith (toLowerCase name) suffix = true ↔ Spec.ends_with_ci name suffix.
Proof.
  intros Hlow. rewrite endsWith_suffix. split.
  - intros [k Hk]. unfold toLowerCase in Hk.
    apply fmap_app_inv in Hk as (stem & ext & -> & -> & ->).
    exists stem, ext. split; [done | apply toLowerCase_Forall2].
  - intros (stem & ext & -> & Hsame).
    exists (toLowerCase stem). unfold toLowerCase at 1. rewrite fmap_app.
    f_equal. by apply Forall2_toLowerCase.
Qed.

End case_insensitive_suffix.

(** ** The request carries the conversation *)

Section request_body.

Lemma accepted_guard (draft : jsstring) (pending : bool) :
  Spec.accepted draft pending →
  negb (nonempty (trim draft)) || pending = false.
Proof.
  intros [Htext ->]. apply nonempty_true in Htext. by rewrite Htext.
Qed.

Lemma guard_rejects (draft : jsstring) (pending : bool) :
  trim draft = [] ∨ pending = true →
  negb (nonempty (trim draft)) || pending = true.
Proof.
  intros [Htext| ->]; [|apply orb_true_r].
  apply nonempty_false in Htext. by rewrite Htext.
Qed.

Lemma push_loop {A B} (f : A → B) (l : list A) (base : list B) :
  foldl (λ base m, base ++ [f m]) base l = base ++ (f <$> l).
Proof.
  revert base. induction l as [|m l IH]; intros base; simpl.
  - by rewrite app_nil_r.
  - rewrite IH, <- app_assoc. done.
Qed.

Lemma requestMessages_history (c : LLMChat.State) :
  LLMChat.requestMessages c =
    Trace.system_entry (LLMChat.systemPrompt c)
    ++ (Trace.entry <$> LLMChat.messages c).
Proof.
  unfold LLMChat.requestMessages, Trace.system_entry.
  rewrite (push_loop Trace.entry). f_equal.
  destruct (decide (trim (LLMChat.systemPrompt c) = [])) as [Hsp|Hsp].
  - apply nonempty_false in Hsp. by rewrite Hsp.
  - apply nonempty_true in Hsp. by rewrite Hsp.
Qed.

(** C1 (amended).  An accepted submission of the chat component posts
    the trimmed system prompt (when that is not empty), then the whole
    prior transcript in order, then the new user message with the trimmed
    text; an accepted submission of the multimodal component posts the
    trimmed question alone. *)
Theorem accepted_submission_request
    (c : LLMChat.State) (r : MultimodalRAG.State) (makeId : jsstring) :
  (Spec.accepted (LLMChat.draft c) (LLMChat.loading c) →
   (LLMChat.send makeId c).2 =
     [LLMChat.PostChat
        (if truthy (LLMChat.model c) then LLMChat.model c else VUndefined)
        (Trace.system_entry (LLMChat.systemPrompt c)
         ++ (Trace.entry <$> LLMChat.messages c)
         ++ [ {| LLMChat.req_role := LLMChat.user;
                 LLMChat.req_content := trim (LLMChat.draft c) |} ])])
  ∧ (Spec.accepted (MultimodalRAG.draft r) (MultimodalRAG.loading r) →
     (MultimodalRAG.send makeId r).2 =
       [MultimodalRAG.PostRagQuery (trim (MultimodalRAG.draft r))]).
Proof.
  split; intros Hacc%accepted_guard.
  - unfold LLMChat.send. rewrite Hacc. simpl.
    by rewrite requestMessages_history, <- app_assoc.
  - unfold MultimodalRAG.send. by rewrite Hacc.
Qed.

End request_body.

Lemma accepted_submission_request_witness :
  (LLMChat.send Sample.id1 Sample.chat).2 =
    [LLMChat.PostChat (VString (js "llama3"))
       [ {| LLMChat.req_role := LLMChat.system;
            LLMChat.req_content := js "You are a helpful assistant." |};
         {| LLMChat.req_role := LLMChat.user; LLMChat.req_content := js "hi" |};
         {| LLMChat.req_role := LLMChat.assistant;
            LLMChat.req_content := js "hello, how can I help?" |};
         {| LLMChat.req_role := LLMChat.user;
            LLMChat.req_content := js "hello" |} ]]
  ∧ (MultimodalRAG.send Sample.id1 Sample.rag).2 =
      [MultimodalRAG.PostRagQuery (js "and the images?")].
Proof.
  destruct (accepted_submission_request Sample.chat Sample.rag Sample.id1)
    as [Hchat Hrag].
  split.
  - rewrite Hchat; [vm_compute; reflexivity|].
    split; [vm_compute; discriminate | reflexivity].
  - rewrite Hrag; [vm_compute; reflexivity|].
    split; [vm_compute; discriminate | reflexivity].
Defined.

(** C1, as stated, fails on the multimodal component: with two messages in
    the transcript, the query conveys the question and not the transcript. *)
Lemma query_omits_transcript : ¬ Trace.query_conveys_transcript.
Proof.
  intros Hall.
  destruct (Hall Sample.rag Sample.id1) as (q & Hq & Hconveyed).
  - split; [vm_compute; discriminate | reflexivity].
  - vm_compute in Hq. injection Hq as <-.
    vm_compute in Hconveyed. discriminate Hconveyed.
Qed.

(** ** Failed submissions *)

Section failures.

Lemma logical_or_assoc (a b c : value) :
  ((a || b) || c = a || (b || c))%JS.
Proof. unfold logical_or. destruct (truthy a) eqn:Ha; [by rewrite Ha | done]. Qed.

Lemma first_available_chain (candidates : list value) (fallback : value) :
  Spec.first_available candidates fallback =
    foldr logical_or fallback candidates.
Proof.
  induction candidates as [|c rest IH]; [done|].
  simpl. unfold logical_or at 1. by rewrite IH.
Qed.

Lemma string_guard_or (e rest : value) :
  ((typeof_string e && e) || rest = Spec.when_string e || rest)%JS.
Proof. by destruct e. Qed.

Lemma chat_failure_message (e : value) :
  LLMChat.failure_message e =
    Spec.first_available (Spec.error_candidates e)
      (VString (js "Failed to send message")).
Proof.
  unfold LLMChat.failure_message. rewrite first_available_chain.
  rewrite !logical_or_assoc, string_guard_or. done.
Qed.

Lemma rag_failure_message (e : value) :
  MultimodalRAG.failure_message e =
    Spec.first_available (Spec.error_candidates e)
      (VString (js "Failed to send message")).
Proof. exact (chat_failure_message e). Qed.

(** Whatever is caught, the message shown counts as true. *)
Lemma failure_message_truthy (e : value) :
  truthy (LLMChat.failure_message e) = true.
Proof. unfold LLMChat.failure_message. by apply logical_or_truthy_r. Qed.

Lemma rag_failure_message_truthy (e : value) :
  truthy (MultimodalRAG.failure_message e) = true.
Proof. exact (failure_message_truthy e). Qed.

(** C2.  After an accepted submission whose request fails, in either
    component: the stored error is the first available of the rejected
    payload when it is a string, its [error], its [details.error], its
    [details.detail], its [message], and else the text "Failed to send
    message"; the pending flag, which the submission raised, is down again
    (a failure lowers it from any state); the transcript is the prior one
    followed by the user message, with no assistant message. *)
Theorem failed_submission_outcome
    (c : LLMChat.State) (r : MultimodalRAG.State) (makeId : jsstring)
    (error : AxiosError) :
  (Spec.accepted (LLMChat.draft c) (LLMChat.loading c) →
   let c' := LLMChat.send_rejected error (LLMChat.send makeId c).1 in
   LLMChat.error c' =
     Spec.first_available
       (Spec.error_candidates (interceptor_rejected error))
       (VString (js "Failed to send message"))
   ∧ LLMChat.loading c' = false
   ∧ LLMChat.messages c' =
       LLMChat.messages c
       ++ [ {| LLMChat.id := makeId; LLMChat.role := LLMChat.user;
               LLMChat.content := trim (LLMChat.draft c) |} ]
   ∧ LLMChat.loading (LLMChat.send makeId c).1 = true
   ∧ ∀ pending, LLMChat.loading (LLMChat.send_rejected error pending) = false)
  ∧ (Spec.accepted (MultimodalRAG.draft r) (MultimodalRAG.loading r) →
     let r' := MultimodalRAG.send_rejected error (MultimodalRAG.send makeId r).1 in
     MultimodalRAG.error r' =
       Spec.first_available
         (Spec.error_candidates (interceptor_rejected error))
         (VString (js "Failed to send message"))
     ∧ MultimodalRAG.loading r' = false
     ∧ MultimodalRAG.messages r' =
         MultimodalRAG.messages r
         ++ [ {| MultimodalRAG.id := makeId;
                 MultimodalRAG.role := MultimodalRAG.user;
                 MultimodalRAG.content := VString (trim (MultimodalRAG.draft r));
                 MultimodalRAG.context := None |} ]
     ∧ MultimodalRAG.loading (MultimodalRAG.send makeId r).1 = true
     ∧ ∀ pending,
         MultimodalRAG.loading (MultimodalRAG.send_rejected error pending)
         = false).
Proof.
  split; intros Hacc%accepted_guard.
  - unfold LLMChat.send. rewrite Hacc. simpl.
    by rewrite chat_failure_message.
  - unfold MultimodalRAG.send. rewrite Hacc. simpl.
    by rewrite rag_failure_message.
Qed.

(** C9.  When the failure has no response, or a response whose body
    counts as false (the empty string among them), the component receives
    the interceptor's "Something went wrong" and stores exactly that; and
    after any failure the stored error is not the empty string. *)
Theorem falsy_failure_shows_substitute
    (c : LLMChat.State) (r : MultimodalRAG.State) (error : AxiosError) :
  (truthy (response_data error) = false →
   interceptor_rejected error = VString (js "Something went wrong")
   ∧ LLMChat.error (LLMChat.send_rejected error c) =
       VString (js "Something went wrong")
   ∧ MultimodalRAG.error (MultimodalRAG.send_rejected error r) =
       VString (js "Something went wrong"))
  ∧ LLMChat.error (LLMChat.send_rejected error c) ≠ VString []
  ∧ MultimodalRAG.error (MultimodalRAG.send_rejected error r) ≠ VString [].
Proof.
  split; [|split].
  - intros Hfalsy.
    assert (interceptor_rejected error = VString (js "Something went wrong"))
      as Hsub.
    { unfold interceptor_rejected, logical_or. by rewrite Hfalsy. }
    split; [done|]. simpl. rewrite Hsub. done.
  - apply truthy_not_empty_string. simpl. apply failure_message_truthy.
  - apply truthy_not_empty_string. simpl. apply rag_failure_message_truthy.
Qed.

End failures.

Lemma failed_submission_outcome_witness :
  LLMChat.error
    (LLMChat.send_rejected Sample.quota_exceeded
       (LLMChat.send Sample.id1 Sample.chat).1) = VString (js "quota exceeded")
  ∧ MultimodalRAG.messages
      (MultimodalRAG.send_rejected Sample.no_response
         (MultimodalRAG.send Sample.id1 Sample.rag).1) =
    MultimodalRAG.messages Sample.rag
    ++ [ {| MultimodalRAG.id := Sample.id1;
            MultimodalRAG.role := MultimodalRAG.user;
            MultimodalRAG.content := VString (js "and the images?");
            MultimodalRAG.context := None |} ].
Proof.
  split.
  - destruct (failed_submission_outcome Sample.chat Sample.rag Sample.id1
                Sample.quota_exceeded) as [Hchat _].
    destruct Hchat as (Herror & _ & _ & _).
    + split; [vm_compute; discriminate | reflexivity].
    + rewrite Herror. vm_compute. reflexivity.
  - destruct (failed_submission_outcome Sample.chat Sample.rag Sample.id1
                Sample.no_response) as [_ Hrag].
    destruct Hrag as (_ & _ & Hmessages & _).
    + split; [vm_compute; discriminate | reflexivity].
    + rewrite Hmessages. vm_compute. reflexivity.
Defined.

Lemma falsy_failure_shows_substitute_witness :
  LLMChat.error (LLMChat.send_rejected Sample.empty_body Sample.chat) =
    VString (js "Something went wrong")
  ∧ MultimodalRAG.error (MultimodalRAG.send_rejected Sample.no_response Sample.rag) =
      VString (js "Something went wrong").
Proof.
  split.
  - destruct (falsy_failure_shows_substitute Sample.chat Sample.rag
                Sample.empty_body) as [Hsub _].
    apply Hsub. reflexivity.
  - destruct (falsy_failure_shows_substitute Sample.chat Sample.rag
                Sample.no_response) as [Hsub _].
    apply Hsub. reflexivity.
Defined.

(** ** The guard of [send] *)

Section guard.

Context `{!Engine}.

Lemma chat_send_pending (makeId : jsstring) (c : LLMChat.State) :
  LLMChat.loading c = true → LLMChat.send makeId c = (c, []).
Proof.
  intros Hpending. unfold LLMChat.send.
  by rewrite Hpending, orb_true_r.
Qed.

Lemma query_send_pending (makeId : jsstring) (r : MultimodalRAG.State) :
  MultimodalRAG.loading r = true → MultimodalRAG.send makeId r = (r, []).
Proof.
  intros Hpending. unfold MultimodalRAG.send.
  by rewrite Hpending, orb_true_r.
Qed.

Lemma chat_accepted_pending (makeId : jsstring) (c : LLMChat.State) :
  Spec.accepted (LLMChat.draft c) (LLMChat.loading c) →
  LLMChat.loading (LLMChat.send makeId c).1 = true
  ∧ length (LLMChat.send makeId c).2 = 1%nat.
Proof.
  intros Hacc%accepted_guard. unfold LLMChat.send. by rewrite Hacc.
Qed.

Lemma query_accepted_pending (makeId : jsstring) (r : MultimodalRAG.State) :
  Spec.accepted (MultimodalRAG.draft r) (MultimodalRAG.loading r) →
  MultimodalRAG.loading (MultimodalRAG.send makeId r).1 = true
  ∧ filter Trace.is_query (MultimodalRAG.send makeId r).2
    = (MultimodalRAG.send makeId r).2
  ∧ length (MultimodalRAG.send makeId r).2 = 1%nat.
Proof.
  intros Hacc%accepted_guard. unfold MultimodalRAG.send. by rewrite Hacc.
Qed.

(** While the chat request is pending, an event that does not settle it
    leaves it pending and issues nothing. *)
Lemma chat_pending_step (ev : LLMChat.Event) (c : LLMChat.State) :
  LLMChat.loading c = true → Trace.chat_settles ev = false →
  LLMChat.loading (LLMChat.handle ev c).1 = true
  ∧ (LLMChat.handle ev c).2 = [].
Proof.
  intros Hpending Hev. destruct ev; try discriminate Hev; simpl.
  - done.
  - done.
  - by case_bool_decide.
  - by rewrite chat_send_pending.
  - unfold LLMChat.send_button_disabled. simpl. by rewrite Hpending.
  - done.
  - unfold LLMChat.loadModels_fulfilled, LLMChat.loadModels_catch.
    split; [|done].
    repeat case_match; done.
  - unfold LLMChat.loadModels_catch. by destruct mounted.
Qed.

Lemma chat_pending_run (evs : list LLMChat.Event) (c : LLMChat.State) :
  LLMChat.loading c = true →
  Forall (λ ev, Trace.chat_settles ev = false) evs →
  (LLMChat.run evs c).2 = [].
Proof.
  intros Hpending Hevs. revert c Hpending.
  induction Hevs as [|ev evs Hev _ IH]; intros c Hpending; [done|].
  simpl. destruct (chat_pending_step ev c Hpending Hev) as [Hnext Hout].
  destruct (LLMChat.handle ev c) as [c1 out1]. simpl in *.
  specialize (IH c1 Hnext).
  destruct (LLMChat.run evs c1) as [c2 out2]. simpl in *.
  by rewrite Hout, IH.
Qed.

(** The same for a pending query; a file upload may start meanwhile, and
    is no query. *)
Lemma query_pending_step (ev : MultimodalRAG.Event) (r : MultimodalRAG.State) :
  MultimodalRAG.loading r = true → Trace.query_settles ev = false →
  MultimodalRAG.loading (MultimodalRAG.handle ev r).1 = true
  ∧ filter Trace.is_query (MultimodalRAG.handle ev r).2 = [].
Proof.
  intros Hpending Hev. destruct ev; try discriminate Hev; simpl.
  - unfold MultimodalRAG.textarea_disabled. by rewrite Hpending.
  - unfold MultimodalRAG.textarea_disabled. by rewrite Hpending.
  - destruct (MultimodalRAG.send_button_disabled r); [done|].
    by rewrite query_send_pending.
  - done.
  - destruct (MultimodalRAG.file_input_disabled r); [done|].
    unfold MultimodalRAG.handleFileUpload.
    repeat case_match; done.
  - unfold MultimodalRAG.handleFileUpload_fulfilled.
    repeat case_match; done.
  - done.
Qed.

Lemma query_pending_run (evs : list MultimodalRAG.Event) (r : MultimodalRAG.State) :
  MultimodalRAG.loading r = true →
  Forall (λ ev, Trace.query_settles ev = false) evs →
  filter Trace.is_query (MultimodalRAG.run evs r).2 = [].
Proof.
  intros Hpending Hevs. revert r Hpending.
  induction Hevs as [|ev evs Hev _ IH]; intros r Hpending; [done|].
  simpl. destruct (query_pending_step ev r Hpending Hev) as [Hnext Hout].
  destruct (MultimodalRAG.handle ev r) as [r1 out1]. simpl in *.
  specialize (IH r1 Hnext).
  destruct (MultimodalRAG.run evs r1) as [r2 out2]. simpl in *.
  by rewrite filter_app, Hout, IH.
Qed.

(** C3.  In either component [send] returns the state as it was and
    issues no request when the trimmed draft is empty or a chat request
    is pending; and from an accepted submission until its request is
    settled, whatever else happens (further submissions among it), no
    second chat request is issued: exactly one goes out. *)
Theorem submission_ignored_when_blank_or_pending
    (c : LLMChat.State) (r : MultimodalRAG.State) (makeId : jsstring) :
  (trim (LLMChat.draft c) = [] ∨ LLMChat.loading c = true →
   LLMChat.send makeId c = (c, []))
  ∧ (trim (MultimodalRAG.draft r) = [] ∨ MultimodalRAG.loading r = true →
     MultimodalRAG.send makeId r = (r, []))
  ∧ (Spec.accepted (LLMChat.draft c) (LLMChat.loading c) →
     ∀ evs, Forall (λ ev, Trace.chat_settles ev = false) evs →
       length ((LLMChat.send makeId c).2
               ++ (LLMChat.run evs (LLMChat.send makeId c).1).2) = 1%nat)
  ∧ (Spec.accepted (MultimodalRAG.draft r) (MultimodalRAG.loading r) →
     ∀ evs, Forall (λ ev, Trace.query_settles ev = false) evs →
       length (filter Trace.is_query
                 ((MultimodalRAG.send makeId r).2
                  ++ (MultimodalRAG.run evs (MultimodalRAG.send makeId r).1).2))
       = 1%nat).
Proof.
  repeat split.
  - intros Hrej%guard_rejects. unfold LLMChat.send. by rewrite Hrej.
  - intros Hrej%guard_rejects. unfold MultimodalRAG.send. by rewrite Hrej.
  - intros Hacc evs Hevs.
    destruct (chat_accepted_pending makeId c Hacc) as [Hpending Hone].
    rewrite length_app, Hone, (chat_pending_run evs _ Hpending Hevs). done.
  - intros Hacc evs Hevs.
    destruct (query_accepted_pending makeId r Hacc) as (Hpending & Hq & Hone).
    rewrite filter_app, Hq, (query_pending_run evs _ Hpending Hevs).
    by rewrite app_nil_r.
Qed.

End guard.

Lemma submission_ignored_when_blank_or_pending_witness :
  LLMChat.send Sample.id2 (LLMChat.send Sample.id1 Sample.chat).1 =
    ((LLMChat.send Sample.id1 Sample.chat).1, [])
  ∧ MultimodalRAG.send Sample.id1 (MultimodalRAG.setDraft (js "  ") Sample.rag) =
      (MultimodalRAG.setDraft (js "  ") Sample.rag, [])
  ∧ length
      ((LLMChat.send Sample.id1 Sample.chat).2
       ++ (@LLMChat.run Sample.v8
             [LLMChat.DraftChange (js "world"); LLMChat.DraftEnter Sample.id2;
              LLMChat.SendClick Sample.id2]
             (LLMChat.send Sample.id1 Sample.chat).1).2) = 1%nat
  ∧ length
      (filter Trace.is_query
         ((MultimodalRAG.send Sample.id1 Sample.rag).2
          ++ (@MultimodalRAG.run Sample.v8
                [MultimodalRAG.SendClick Sample.id2;
                 MultimodalRAG.FileChange (Some [Sample.report_PDF])]
                (MultimodalRAG.send Sample.id1 Sample.rag).1).2)) = 1%nat.
Proof.
  split; [|split; [|split]].
  - apply (@submission_ignored_when_blank_or_pending Sample.v8
             (LLMChat.send Sample.id1 Sample.chat).1 Sample.rag Sample.id2).
    right. reflexivity.
  - apply (@submission_ignored_when_blank_or_pending Sample.v8 Sample.chat
             (MultimodalRAG.setDraft (js "  ") Sample.rag) Sample.id1).
    left. reflexivity.
  - apply (@submission_ignored_when_blank_or_pending Sample.v8 Sample.chat
             Sample.rag Sample.id1).
    + split; [vm_compute; discriminate | reflexivity].
    + repeat constructor.
  - apply (@submission_ignored_when_blank_or_pending Sample.v8 Sample.chat
             Sample.rag Sample.id1).
    + split; [vm_compute; discriminate | reflexivity].
    + repeat constructor.
Defined.

(** ** Clearing the chat *)

Section clearing.

Context `{!Engine}.

(** C4.  In either component, from any state, [clearChat] leaves an empty
    transcript and an empty stored error, does not touch the pending
    flag, and issues nothing: no request is cancelled. *)
Theorem clearChat_empties (c : LLMChat.State) (r : MultimodalRAG.State) :
  (LLMChat.messages (LLMChat.clearChat c) = []
   ∧ LLMChat.error (LLMChat.clearChat c) = VString []
   ∧ LLMChat.loading (LLMChat.clearChat c) = LLMChat.loading c
   ∧ LLMChat.handle LLMChat.ClearClick c = (LLMChat.clearChat c, []))
  ∧ (MultimodalRAG.messages (MultimodalRAG.clearChat r) = []
     ∧ MultimodalRAG.error (MultimodalRAG.clearChat r) = VString []
     ∧ MultimodalRAG.loading (MultimodalRAG.clearChat r) = MultimodalRAG.loading r
     ∧ MultimodalRAG.uploading (MultimodalRAG.clearChat r)
       = MultimodalRAG.uploading r
     ∧ MultimodalRAG.handle MultimodalRAG.ClearClick r
       = (MultimodalRAG.clearChat r, [])).
Proof. done. Qed.

(** C8.  [clearChat] changes the transcript and the stored error only.
    So when it runs while a chat request is pending, the response that
    then arrives is appended to the emptied transcript, whose single
    message is the assistant's: in the chat component for a response
    whose content renders to text, in the multimodal component always. *)
Theorem clearChat_frame_and_late_response
    (c : LLMChat.State) (r : MultimodalRAG.State) (id1 id2 : jsstring)
    (res : AxiosResponse) (content : jsstring) :
  (LLMChat.loading (LLMChat.clearChat c) = LLMChat.loading c
   ∧ LLMChat.draft (LLMChat.clearChat c) = LLMChat.draft c
   ∧ LLMChat.model (LLMChat.clearChat c) = LLMChat.model c
   ∧ LLMChat.systemPrompt (LLMChat.clearChat c) = LLMChat.systemPrompt c
   ∧ LLMChat.availableModels (LLMChat.clearChat c) = LLMChat.availableModels c)
  ∧ (MultimodalRAG.loading (MultimodalRAG.clearChat r) = MultimodalRAG.loading r
     ∧ MultimodalRAG.uploading (MultimodalRAG.clearChat r)
       = MultimodalRAG.uploading r
     ∧ MultimodalRAG.draft (MultimodalRAG.clearChat r) = MultimodalRAG.draft r
     ∧ MultimodalRAG.uploadSuccess (MultimodalRAG.clearChat r)
       = MultimodalRAG.uploadSuccess r
     ∧ MultimodalRAG.processedFiles (MultimodalRAG.clearChat r)
       = MultimodalRAG.processedFiles r)
  ∧ (Spec.accepted (LLMChat.draft c) (LLMChat.loading c) →
     toString (get (data res) "content" ?? VString [])%JS = Some content →
     let pending := LLMChat.clearChat (LLMChat.send id1 c).1 in
     LLMChat.loading pending = true
     ∧ LLMChat.messages (LLMChat.send_fulfilled id2 res pending) =
         [ {| LLMChat.id := id2; LLMChat.role := LLMChat.assistant;
              LLMChat.content := if nonempty content then content
                                 else js "(empty response)" |} ])
  ∧ (Spec.accepted (MultimodalRAG.draft r) (MultimodalRAG.loading r) →
     let pending := MultimodalRAG.clearChat (MultimodalRAG.send id1 r).1 in
     MultimodalRAG.loading pending = true
     ∧ ∃ m, MultimodalRAG.messages (MultimodalRAG.send_fulfilled id2 res pending)
            = [m]
          ∧ MultimodalRAG.role m = MultimodalRAG.assistant).
Proof.
  split; [done|]. split; [done|]. split.
  - intros Hacc%accepted_guard Hcontent. unfold LLMChat.send.
    rewrite Hacc. simpl. split; [done|].
    unfold LLMChat.send_fulfilled. rewrite Hcontent. done.
  - intros Hacc%accepted_guard. unfold MultimodalRAG.send.
    rewrite Hacc. simpl. split; [done|]. eauto.
Qed.

End clearing.

Lemma clearChat_frame_and_late_response_witness :
  LLMChat.messages
    (@LLMChat.send_fulfilled Sample.v8 Sample.id2 Sample.answered
       (LLMChat.clearChat (LLMChat.send Sample.id1 Sample.chat).1)) =
    [ {| LLMChat.id := Sample.id2; LLMChat.role := LLMChat.assistant;
         LLMChat.content := js "42" |} ]
  ∧ length
      (MultimodalRAG.messages
         (MultimodalRAG.send_fulfilled Sample.id2 Sample.answered
            (MultimodalRAG.clearChat (MultimodalRAG.send Sample.id1 Sample.rag).1)))
    = 1%nat.
Proof.
  destruct (@clearChat_frame_and_late_response Sample.v8 Sample.chat Sample.rag
              Sample.id1 Sample.id2 Sample.answered (js "42"))
    as (_ & _ & Hchat & Hrag).
  split.
  - apply Hchat; [split; [vm_compute; discriminate | reflexivity] | reflexivity].
  - destruct Hrag as (_ & m & -> & _); [|reflexivity].
    split; [vm_compute; discriminate | reflexivity].
Defined.

(** ** Successful responses *)

Section responses.

Context `{!Engine}.

(** C5.  A fulfilled response appends one assistant message.  In the chat
    component its content is "(empty response)" when the response's
    [content] is the empty string or absent, and is the [content] when
    that is a non-empty string; in the multimodal component the same
    holds of the response's [answer]. *)
Theorem empty_response_placeholder
    (c : LLMChat.State) (r : MultimodalRAG.State) (makeId : jsstring)
    (res : AxiosResponse) :
  let content := get (data res) "content" in
  let answer := get (data res) "answer" in
  (content = VString [] ∨ content = VUndefined ∨ content = VNull →
   LLMChat.messages (LLMChat.send_fulfilled makeId res c) =
     LLMChat.messages c
     ++ [ {| LLMChat.id := makeId; LLMChat.role := LLMChat.assistant;
             LLMChat.content := js "(empty response)" |} ])
  ∧ (∀ text, content = VString text → text ≠ [] →
     LLMChat.messages (LLMChat.send_fulfilled makeId res c) =
       LLMChat.messages c
       ++ [ {| LLMChat.id := makeId; LLMChat.role := LLMChat.assistant;
               LLMChat.content := text |} ])
  ∧ (∃ m, MultimodalRAG.messages (MultimodalRAG.send_fulfilled makeId res r) =
            MultimodalRAG.messages r ++ [m]
        ∧ MultimodalRAG.role m = MultimodalRAG.assistant
        ∧ (answer = VString [] ∨ answer = VUndefined ∨ answer = VNull →
           MultimodalRAG.content m = VString (js "(empty response)"))
        ∧ (∀ text, answer = VString text → text ≠ [] →
           MultimodalRAG.content m = VString text)).
Proof.
  cbv zeta. split; [|split].
  - unfold LLMChat.send_fulfilled.
    intros [-> | [-> | ->]]; done.
  - unfold LLMChat.send_fulfilled.
    intros text -> Htext%nonempty_true. simpl. by rewrite Htext.
  - eexists. split; [reflexivity|]. split; [done|].
    cbn [MultimodalRAG.content]. split.
    + intros [-> | [-> | ->]]; done.
    + intros text -> Htext%nonempty_true.
      unfold logical_or. simpl. by rewrite Htext.
Qed.

End responses.

Lemma empty_response_placeholder_witness :
  LLMChat.messages
    (@LLMChat.send_fulfilled Sample.v8 Sample.id2 Sample.empty_content Sample.chat) =
    LLMChat.messages Sample.chat
    ++ [ {| LLMChat.id := Sample.id2; LLMChat.role := LLMChat.assistant;
            LLMChat.content := js "(empty response)" |} ]
  ∧ LLMChat.messages
      (@LLMChat.send_fulfilled Sample.v8 Sample.id2 Sample.answered Sample.chat) =
      LLMChat.messages Sample.chat
      ++ [ {| LLMChat.id := Sample.id2; LLMChat.role := LLMChat.assistant;
              LLMChat.content := js "42" |} ]
  ∧ (∃ m, MultimodalRAG.messages
            (MultimodalRAG.send_fulfilled Sample.id2 Sample.empty_content Sample.rag)
          = MultimodalRAG.messages Sample.rag ++ [m]
        ∧ MultimodalRAG.content m = VString (js "(empty response)"))
  ∧ (∃ m, MultimodalRAG.messages
            (MultimodalRAG.send_fulfilled Sample.id2 Sample.answered Sample.rag)
          = MultimodalRAG.messages Sample.rag ++ [m]
        ∧ MultimodalRAG.content m = VString (js "42")).
Proof.
  split; [|split; [|split]].
  - destruct (@empty_response_placeholder Sample.v8 Sample.chat Sample.rag
                Sample.id2 Sample.empty_content) as (Hempty & _ & _).
    apply Hempty. left. reflexivity.
  - destruct (@empty_response_placeholder Sample.v8 Sample.chat Sample.rag
                Sample.id2 Sample.answered) as (_ & Htext & _).
    apply (Htext (js "42")); [reflexivity | discriminate].
  - destruct (@empty_response_placeholder Sample.v8 Sample.chat Sample.rag
                Sample.id2 Sample.empty_content)
      as (_ & _ & m & Hm & _ & Hempty & _).
    exists m. split; [exact Hm|]. apply Hempty. right. left. reflexivity.
  - destruct (@empty_response_placeholder Sample.v8 Sample.chat Sample.rag
                Sample.id2 Sample.answered)
      as (_ & _ & m & Hm & _ & _ & Htext).
    exists m. split; [exact Hm|].
    apply (Htext (js "42")); [reflexivity | discriminate].
Defined.

(** ** Uploads *)

Section uploads.

Context `{!Engine}.

Lemma pdf_literal_lower : toLowerCase (js ".pdf") = js ".pdf".
Proof. reflexivity. Qed.

Lemma pdf_test (name : jsstring) :
  endsWith (toLowerCase name) (js ".pdf") = true
  ↔ Spec.ends_with_ci name (js ".pdf").
Proof. apply endsWith_toLowerCase, pdf_literal_lower. Qed.

(** C6.  For the file of an upload action: when its name does not end in
    ".pdf" under case-insensitive comparison, no request is issued, the
    validation message is stored for display and the uploading flag is
    as it was; when it does, exactly one request is issued, carrying that
    file alone, and the uploading flag is raised. *)
Theorem upload_accepts_pdf_names_only
    (r : MultimodalRAG.State) (file : MultimodalRAG.File)
    (others : list MultimodalRAG.File) :
  let '(r', out) := MultimodalRAG.handleFileUpload (Some (file :: others)) r in
  (¬ Spec.ends_with_ci (MultimodalRAG.name file) (js ".pdf") →
   out = []
   ∧ MultimodalRAG.error r' = VString (js "Please upload a PDF file")
   ∧ MultimodalRAG.uploading r' = MultimodalRAG.uploading r)
  ∧ (Spec.ends_with_ci (MultimodalRAG.name file) (js ".pdf") →
     out = [MultimodalRAG.PostRagProcess file]
     ∧ MultimodalRAG.uploading r' = true).
Proof.
  unfold MultimodalRAG.handleFileUpload.
  destruct (endsWith (toLowerCase (MultimodalRAG.name file)) (js ".pdf"))
    eqn:Htest; simpl.
  - apply pdf_test in Htest. split; [by intros []|done].
  - split; [done|]. intros Hpdf%pdf_test. congruence.
Qed.

(** C7 (amended).  The chat flag and the uploading flag are two fields,
    and the guard of [send] reads the chat flag only: it accepts a
    non-blank draft whatever the uploading flag is, and leaves that flag
    alone, as an upload leaves the chat flag alone.  The footer, though,
    disables the text area and the send button while an upload is in
    flight: then neither Enter nor a click reaches [send], and the draft
    cannot be edited; with both flags down they do reach it. *)
Theorem submission_gated_by_upload_in_footer
    (r : MultimodalRAG.State) (makeId v : jsstring)
    (files : option (list MultimodalRAG.File)) :
  (Spec.accepted (MultimodalRAG.draft r) (MultimodalRAG.loading r) →
   (MultimodalRAG.send makeId r).2
     = [MultimodalRAG.PostRagQuery (trim (MultimodalRAG.draft r))]
   ∧ MultimodalRAG.uploading (MultimodalRAG.send makeId r).1
     = MultimodalRAG.uploading r)
  ∧ MultimodalRAG.loading (MultimodalRAG.handleFileUpload files r).1
    = MultimodalRAG.loading r
  ∧ (MultimodalRAG.uploading r = true →
     MultimodalRAG.handle (MultimodalRAG.DraftEnter makeId) r = (r, [])
     ∧ MultimodalRAG.handle (MultimodalRAG.SendClick makeId) r = (r, [])
     ∧ MultimodalRAG.handle (MultimodalRAG.DraftChange v) r = (r, []))
  ∧ (MultimodalRAG.uploading r = false → MultimodalRAG.loading r = false →
     MultimodalRAG.handle (MultimodalRAG.DraftEnter makeId) r
       = MultimodalRAG.send makeId r
     ∧ MultimodalRAG.handle (MultimodalRAG.SendClick makeId) r
       = MultimodalRAG.send makeId r).
Proof.
  split; [|split; [|split]].
  - intros Hacc%accepted_guard. unfold MultimodalRAG.send. by rewrite Hacc.
  - unfold MultimodalRAG.handleFileUpload. by repeat case_match.
  - intros Hup. simpl.
    unfold MultimodalRAG.textarea_disabled, MultimodalRAG.send_button_disabled.
    simpl. by rewrite Hup, orb_true_r.
  - intros Hup Hidle. simpl.
    unfold MultimodalRAG.textarea_disabled, MultimodalRAG.send_button_disabled.
    simpl. by rewrite Hup, Hidle.
Qed.

End uploads.

Lemma upload_accepts_pdf_names_only_witness :
  (MultimodalRAG.handleFileUpload (Some [Sample.report_txt]) Sample.rag).2 = []
  ∧ (MultimodalRAG.handleFileUpload (Some [Sample.report_PDF]) Sample.rag).2 =
      [MultimodalRAG.PostRagProcess Sample.report_PDF].
Proof.
  split.
  - pose proof (@upload_accepts_pdf_names_only Sample.rag Sample.report_txt [])
      as Hgate.
    destruct (MultimodalRAG.handleFileUpload (Some [Sample.report_txt]) Sample.rag)
      as [r' out].
    destruct Hgate as [Hother _]. apply Hother.
    intros Hpdf. apply pdf_test in Hpdf. discriminate Hpdf.
  - pose proof (upload_accepts_pdf_names_only Sample.rag Sample.report_PDF [])
      as Hgate.
    destruct (MultimodalRAG.handleFileUpload (Some [Sample.report_PDF]) Sample.rag)
      as [r' out].
    destruct Hgate as [_ Hpdf]. apply Hpdf.
    exists (js "Report"), (js ".PDF"). split; [reflexivity|].
    constructor; [by left|].
    repeat (constructor;
            [right; cbv; repeat split; (reflexivity || discriminate)|]).
    constructor.
Defined.

Lemma submission_gated_by_upload_in_footer_witness :
  @MultimodalRAG.handle Sample.v8 (MultimodalRAG.DraftEnter Sample.id1)
    Sample.rag_uploading = (Sample.rag_uploading, [])
  ∧ (MultimodalRAG.send Sample.id1 Sample.rag_uploading).2 =
      [MultimodalRAG.PostRagQuery (js "and the images?")]
  ∧ @MultimodalRAG.handle Sample.v8 (MultimodalRAG.SendClick Sample.id1) Sample.rag
    = MultimodalRAG.send Sample.id1 Sample.rag.
Proof.
  destruct (@submission_gated_by_upload_in_footer Sample.v8 Sample.rag_uploading
              Sample.id1 [] None) as (Hsend & _ & Hfooter & _).
  destruct (@submission_gated_by_upload_in_footer Sample.v8 Sample.rag
              Sample.id1 [] None) as (_ & _ & _ & Hidle).
  split; [|split].
  - apply Hfooter. reflexivity.
  - destruct Hsend as [-> _]; [|reflexivity].
    split; [vm_compute; discriminate | reflexivity].
  - apply Hidle; reflexivity.
Defined.

(** C7, as stated, fails: with an upload in flight, no chat request
    pending and the draft " and the images? ", neither Enter nor a click
    on the send button issues a request. *)
Lemma submission_unusable_while_uploading :
  ¬ Trace.submission_usable_while_uploading.
Proof.
  intros Hall.
  destruct (Hall Sample.v8 Sample.rag_uploading Sample.id1) as [Hout | Hout].
  - reflexivity.
  - split; [vm_compute; discriminate | reflexivity].
  - apply Hout. reflexivity.
  - apply Hout. reflexivity.
Qed.

(** ** Model discovery *)

Section discovery.

Lemma loadModels_names (c : LLMChat.State) (res : AxiosResponse)
    (models : list value) :
  get (data res) "models" = VArray models →
  LLMChat.availableModels (LLMChat.loadModels_fulfilled true res c) =
    filter (λ n, truthy n) ((λ m, get m "name") <$> models).
Proof.
  intros Hmodels. unfold LLMChat.loadModels_fulfilled.
  rewrite Hmodels. simpl. by case_bool_decide.
Qed.

(** The model read by [loadModels] is the initial, empty one: the first
    name is selected whatever the model of the current state. *)
Lemma loadModels_selects_first (c : LLMChat.State) (res : AxiosResponse)
    (models : list value) (first : value) (rest : list value) :
  get (data res) "models" = VArray models →
  filter (λ n, truthy n) ((λ m, get m "name") <$> models) = first :: rest →
  LLMChat.loadModels_fulfilled true res c =
    LLMChat.setModel first (LLMChat.setAvailableModels (first :: rest) c).
Proof.
  intros Hmodels Hnames. unfold LLMChat.loadModels_fulfilled.
  rewrite Hmodels. simpl. by rewrite Hnames.
Qed.

(** C10.  When the model fetch is fulfilled with a list of descriptors,
    the names listed afterwards are exactly the descriptors' names that
    count as true, in the order of the descriptors; and when that list is
    not empty and no model is selected, its first name becomes the selected model, which the next
    accepted chat request carries in its [model] field. *)
Theorem discovered_model_selected
    (c : LLMChat.State) (res : AxiosResponse) (models : list value)
    (makeId : jsstring) :
  get (data res) "models" = VArray models →
  let c' := LLMChat.loadModels_fulfilled true res c in
  LLMChat.availableModels c'
  = filter (λ n, truthy n) ((λ m, get m "name") <$> models)
  ∧ (∀ n, n ∈ LLMChat.availableModels c'
          ↔ truthy n = true ∧ ∃ m, m ∈ models ∧ get m "name" = n)
  ∧ (∀ first rest,
       LLMChat.availableModels c' = first :: rest →
       LLMChat.model c = VString [] →
       LLMChat.model c' = first
       ∧ (Spec.accepted (LLMChat.draft c') (LLMChat.loading c') →
          ∃ messages,
            (LLMChat.send makeId c').2 = [LLMChat.PostChat first messages])).
Proof.
  intros Hmodels c'. subst c'.
  split; [exact (loadModels_names c res models Hmodels)|]. split.
  - intros n. rewrite (loadModels_names c res models Hmodels).
    rewrite list_elem_of_filter, list_elem_of_fmap. split.
    + intros [Hn (m & -> & Hm)]. split; [by apply Is_true_true|eauto].
    + intros [Hn (m & Hm & <-)]. split; [by apply Is_true_true|eauto].
  - intros first rest Hnames _.
    rewrite (loadModels_names c res models Hmodels) in Hnames.
    assert (truthy first = true) as Hfirst.
    { assert (first ∈ filter (λ n, truthy n)
                          ((λ m, get m "name") <$> models)) as Hin
        by (rewrite Hnames; left).
      apply list_elem_of_filter in Hin as [Hin _]. by apply Is_true_true. }
    rewrite (loadModels_selects_first c res models first rest Hmodels Hnames).
    split; [done|].
    intros Hacc%accepted_guard. unfold LLMChat.send.
    cbn [LLMChat.draft LLMChat.loading LLMChat.model LLMChat.setModel
         LLMChat.setAvailableModels] in *.
    rewrite Hacc. simpl.
    unfold logical_or. rewrite Hfirst. eauto.
Qed.

End discovery.

Lemma discovered_model_selected_witness :
  LLMChat.availableModels
    (LLMChat.loadModels_fulfilled true Sample.model_list
       (LLMChat.setDraft (js "hello") LLMChat.initial)) =
    [VString (js "llama3"); VString (js "mistral")]
  ∧ LLMChat.model
      (LLMChat.loadModels_fulfilled true Sample.model_list
         (LLMChat.setDraft (js "hello") LLMChat.initial)) = VString (js "llama3").
Proof.
  split; [reflexivity|].
  eapply (discovered_model_selected
            (LLMChat.setDraft (js "hello") LLMChat.initial) Sample.model_list
            _ Sample.id1); reflexivity.
Defined.

(** ** The specification's sample cases, evaluated *)

Example string_payload_is_shown :
  LLMChat.failure_message
    (interceptor_rejected {| response := Some {| data := VString (js "bad request") |} |})
  = VString (js "bad request").
Proof. reflexivity. Qed.

Example error_field_is_shown :
  MultimodalRAG.failure_message (interceptor_rejected Sample.quota_exceeded)
  = VString (js "quota exceeded").
Proof. vm_compute. reflexivity. Qed.

Example nested_detail_is_shown :
  LLMChat.failure_message
    (VObject {[ js "details" := VObject {[ js "detail" := VString (js "model not found") ]} ]})
  = VString (js "model not found").
Proof. vm_compute. reflexivity. Qed.

Example unrenderable_content_is_a_failure :
  LLMChat.error
    (@LLMChat.send_fulfilled Sample.v8 Sample.id2
       {| data := VObject {[ js "content" :=
                    VObject {[ js "toString" := VNumber (js "1") ]} ]} |}
       (LLMChat.send Sample.id1 Sample.chat).1)
  = VString (js "(intermediate value).toString is not a function").
Proof. vm_compute. reflexivity. Qed.

Example trim_removes_surrounding_space :
  trim (js "  hello ") = js "hello" ∧ trim [0x20; 0x3000; 0x0A; 0xFEFF] = [].
Proof. split; reflexivity. Qed.

Example upload_in_flight_reached :
  (MultimodalRAG.handleFileUpload (Some [Sample.report_PDF]) Sample.rag).1
  = Sample.rag_uploading.
Proof. reflexivity. Qed.

Example pdf_suffix_cases :
  endsWith (toLowerCase (js "Report.PDF")) (js ".pdf") = true
  ∧ endsWith (toLowerCase (js "report.txt")) (js ".pdf") = false
  ∧ endsWith (toLowerCase (js "pdf")) (js ".pdf") = false.
Proof. repeat split; reflexivity. Qed.

(** ** Blank and trimmed text *)

Section trimming.

Lemma trimStart_blank (s : jsstring) : trimStart s = [] ↔ Runs.blank s.
Proof.
  unfold Runs.blank. induction s as [|c s IH]; simpl.
  - split; [constructor | done].
  - destruct (isWhiteSpace c) eqn:Hc.
    + rewrite IH. split; [by constructor | by inversion 1].
    + split; [done|]. inversion 1; congruence.
Qed.

Lemma trimStart_head (s : jsstring) (c : N) :
  head (trimStart s) = Some c → isWhiteSpace c = false.
Proof.
  induction s as [|d s IH]; simpl; [done|].
  destruct (isWhiteSpace d) eqn:Hd; [done|].
  simpl. congruence.
Qed.

Lemma trimStart_suffix (s : jsstring) : trimStart s `suffix_of` s.
Proof.
  induction s as [|c s IH]; simpl; [done|].
  destruct (isWhiteSpace c); [by apply suffix_cons_r | done].
Qed.

Lemma trimStart_fixed (s : jsstring) :
  (∀ c, head s = Some c → isWhiteSpace c = false) → trimStart s = s.
Proof.
  destruct s as [|c s]; [done|]. intros Hhead. simpl.
  by rewrite (Hhead c).
Qed.

Lemma blank_reverse (s : jsstring) : Runs.blank (reverse s) ↔ Runs.blank s.
Proof. unfold Runs.blank. by rewrite Forall_reverse. Qed.

Lemma head_reverse (s : jsstring) : head (reverse s) = last s.
Proof.
  induction s as [|c s IH] using rev_ind; [done|].
  by rewrite reverse_snoc, last_snoc.
Qed.

Lemma last_suffix (s t : jsstring) :
  s `suffix_of` t → s ≠ [] → last s = last t.
Proof.
  intros [k ->] Hs. rewrite last_app.
  destruct (last s) eqn:Hlast; [done|].
  by apply last_None in Hlast.
Qed.

Lemma trim_blank (s : jsstring) : trim s = [] ↔ Runs.blank s.
Proof.
  unfold trim, trimEnd. split.
  - intros Hnil. apply (f_equal reverse) in Hnil.
    rewrite reverse_involutive in Hnil. change (reverse []) with (@nil N) in Hnil.
    apply (proj1 (trimStart_blank _)) in Hnil.
    apply (proj1 (blank_reverse _)) in Hnil.
    apply (proj2 (trimStart_blank _)) in Hnil.
    rewrite trimStart_fixed in Hnil by apply trimStart_head.
    by apply trimStart_blank.
  - intros Hblank%trimStart_blank. by rewrite Hblank.
Qed.

Lemma trim_trimmed (s : jsstring) : Runs.trimmed (trim s).
Proof.
  unfold trim, trimEnd. set (front := trimStart s).
  split; intros c.
  - rewrite head_reverse. intros Hlast.
    destruct (decide (trimStart (reverse front) = [])) as [Hnil|Hne];
      [by rewrite Hnil in Hlast|].
    rewrite (last_suffix _ (reverse front)) in Hlast
      by (done || apply trimStart_suffix).
    rewrite <- head_reverse, reverse_involutive in Hlast.
    by apply (trimStart_head s).
  - rewrite <- head_reverse, reverse_involutive. apply trimStart_head.
Qed.

Lemma trimmed_fixed (s : jsstring) : Runs.trimmed s → trim s = s.
Proof.
  intros [Hhead Hlast]. unfold trim, trimEnd.
  rewrite (trimStart_fixed s Hhead).
  rewrite trimStart_fixed; [apply reverse_involutive|].
  intros c. rewrite head_reverse. apply Hlast.
Qed.

Lemma trim_idempotent (s : jsstring) : trim (trim s) = trim s.
Proof. apply trimmed_fixed, trim_trimmed. Qed.

End trimming.

Section blank_drafts.

Lemma guard_blank (draft : jsstring) (pending : bool) :
  negb (nonempty (trim draft)) || pending = true
  ↔ Runs.blank draft ∨ pending = true.
Proof.
  rewrite orb_true_iff, negb_true_iff, nonempty_false, trim_blank. done.
Qed.

(** X1.  [send] leaves the state as it is and issues nothing exactly when
    the draft is made of white space only (the empty draft among them) or a
    request is pending.  In every other case it issues one request, the
    chat request with the trimmed draft as its last entry or the query with
    the trimmed draft as its question, and raises the pending flag. *)
Theorem send_skips_exactly_blank_or_pending
    (c : LLMChat.State) (r : MultimodalRAG.State) (makeId : jsstring) :
  (LLMChat.send makeId c = (c, [])
   ↔ Runs.blank (LLMChat.draft c) ∨ LLMChat.loading c = true)
  ∧ (MultimodalRAG.send makeId r = (r, [])
     ↔ Runs.blank (MultimodalRAG.draft r) ∨ MultimodalRAG.loading r = true)
  ∧ (¬ Runs.blank (LLMChat.draft c) → LLMChat.loading c = false →
     (LLMChat.send makeId c).2
     = [LLMChat.PostChat (LLMChat.model c || VUndefined)%JS
          (LLMChat.requestMessages c
           ++ [ {| LLMChat.req_role := LLMChat.user;
                   LLMChat.req_content := trim (LLMChat.draft c) |} ])]
     ∧ LLMChat.loading (LLMChat.send makeId c).1 = true)
  ∧ (¬ Runs.blank (MultimodalRAG.draft r) → MultimodalRAG.loading r = false →
     (MultimodalRAG.send makeId r).2
     = [MultimodalRAG.PostRagQuery (trim (MultimodalRAG.draft r))]
     ∧ MultimodalRAG.loading (MultimodalRAG.send makeId r).1 = true).
Proof.
  split; [|split; [|split]].
  - rewrite <- guard_blank. unfold LLMChat.send.
    destruct (negb (nonempty (trim (LLMChat.draft c))) || LLMChat.loading c);
      [done|].
    split; [intros Heq; inversion Heq | done].
  - rewrite <- guard_blank. unfold MultimodalRAG.send.
    destruct (negb (nonempty (trim (MultimodalRAG.draft r)))
              || MultimodalRAG.loading r); [done|].
    split; [intros Heq; inversion Heq | done].
  - intros Htext Hidle. unfold LLMChat.send.
    rewrite Hidle, (proj2 (nonempty_true _)) by by rewrite trim_blank.
    done.
  - intros Htext Hidle. unfold MultimodalRAG.send.
    rewrite Hidle, (proj2 (nonempty_true _)) by by rewrite trim_blank.
    done.
Qed.

Lemma trimStart_split (s : jsstring) :
  ∃ before, s = before ++ trimStart s ∧ Runs.blank before.
Proof.
  induction s as [|c s (before & Hs & Hblank)]; simpl.
  - exists []. split; [done | constructor].
  - destruct (isWhiteSpace c) eqn:Hc.
    + exists (c :: before). split; [by rewrite Hs at 1 | by constructor].
    + exists []. split; [done | constructor].
Qed.

Lemma trim_split (s : jsstring) :
  ∃ before after,
    s = before ++ trim s ++ after ∧ Runs.blank before ∧ Runs.blank after.
Proof.
  destruct (trimStart_split s) as (before & Hs & Hbefore).
  destruct (trimStart_split (reverse (trimStart s))) as (end_ & Hend & Hafter).
  exists before, (reverse end_). split; [|split; [done|by apply blank_reverse]].
  unfold trim, trimEnd. rewrite <- reverse_app, <- Hend, reverse_involutive.
  done.
Qed.

(** X2.  The text of an accepted submission, as it enters the transcript
    and the request, is the trimmed draft, which is not empty.  The trimmed
    draft is the draft without its surrounding white space: the draft is
    white space, then the trimmed draft, then white space; neither end of
    the trimmed draft is white space; and trimming it again changes
    nothing. *)
Theorem submitted_text_is_trimmed
    (c : LLMChat.State) (r : MultimodalRAG.State) (makeId draft : jsstring) :
  (Spec.accepted (LLMChat.draft c) (LLMChat.loading c) →
   last (LLMChat.messages (LLMChat.send makeId c).1)
     = Some {| LLMChat.id := makeId; LLMChat.role := LLMChat.user;
               LLMChat.content := trim (LLMChat.draft c) |}
   ∧ (∃ model history,
        (LLMChat.send makeId c).2 =
          [LLMChat.PostChat model
             (history ++ [ {| LLMChat.req_role := LLMChat.user;
                              LLMChat.req_content := trim (LLMChat.draft c) |} ])])
   ∧ trim (LLMChat.draft c) ≠ [])
  ∧ (Spec.accepted (MultimodalRAG.draft r) (MultimodalRAG.loading r) →
     last (MultimodalRAG.messages (MultimodalRAG.send makeId r).1)
       = Some {| MultimodalRAG.id := makeId;
                 MultimodalRAG.role := MultimodalRAG.user;
                 MultimodalRAG.content := VString (trim (MultimodalRAG.draft r));
                 MultimodalRAG.context := None |}
     ∧ (MultimodalRAG.send makeId r).2
       = [MultimodalRAG.PostRagQuery (trim (MultimodalRAG.draft r))]
     ∧ trim (MultimodalRAG.draft r) ≠ [])
  ∧ (∃ before after,
       draft = before ++ trim draft ++ after
       ∧ Runs.blank before ∧ Runs.blank after)
  ∧ Runs.trimmed (trim draft)
  ∧ trim (trim draft) = trim draft.
Proof.
  split; [|split; [|split; [apply trim_split|]]].
  - intros Hacc. pose proof Hacc as [Htext _]. apply accepted_guard in Hacc.
    unfold LLMChat.send. rewrite Hacc.
    cbn [fst snd LLMChat.messages LLMChat.setDraft LLMChat.setMessages].
    rewrite last_snoc. split; [done|]. split; [eauto | done].
  - intros Hacc. pose proof Hacc as [Htext _]. apply accepted_guard in Hacc.
    unfold MultimodalRAG.send. rewrite Hacc.
    cbn [fst snd MultimodalRAG.messages MultimodalRAG.setDraft
         MultimodalRAG.setMessages].
    rewrite last_snoc. done.
  - split; [apply trim_trimmed | apply trim_idempotent].
Qed.

End blank_drafts.

Lemma send_skips_exactly_blank_or_pending_witness :
  LLMChat.send Sample.id1 (LLMChat.setDraft [0x20; 0x0A; 0x3000] Sample.chat)
    = (LLMChat.setDraft [0x20; 0x0A; 0x3000] Sample.chat, [])
  ∧ (MultimodalRAG.send Sample.id1 Sample.rag).2
    = [MultimodalRAG.PostRagQuery (js "and the images?")]
  ∧ LLMChat.loading (LLMChat.send Sample.id1 Sample.chat).1 = true.
Proof.
  split; [|split].
  - destruct (send_skips_exactly_blank_or_pending
                (LLMChat.setDraft [0x20; 0x0A; 0x3000] Sample.chat) Sample.rag
                Sample.id1) as (Hskip & _).
    apply Hskip. left. repeat constructor.
  - destruct (send_skips_exactly_blank_or_pending Sample.chat Sample.rag
                Sample.id1) as (_ & _ & _ & Hquery).
    destruct Hquery as [-> _]; [|reflexivity|reflexivity].
    intros Hblank. apply trim_blank in Hblank. discriminate Hblank.
  - destruct (send_skips_exactly_blank_or_pending Sample.chat Sample.rag
                Sample.id1) as (_ & _ & Hchat & _).
    apply Hchat; [|reflexivity].
    intros Hblank. apply trim_blank in Hblank. discriminate Hblank.
Defined.

Lemma submitted_text_is_trimmed_witness :
  (MultimodalRAG.send Sample.id1 Sample.rag).2
    = [MultimodalRAG.PostRagQuery (js "and the images?")]
  ∧ last (LLMChat.messages (LLMChat.send Sample.id1 Sample.chat).1)
    = Some {| LLMChat.id := Sample.id1; LLMChat.role := LLMChat.user;
              LLMChat.content := js "hello" |}.
Proof.
  destruct (submitted_text_is_trimmed Sample.chat Sample.rag Sample.id1 [])
    as (Hchat & Hrag & _).
  split.
  - destruct Hrag as (_ & -> & _); [|reflexivity].
    split; [vm_compute; discriminate | reflexivity].
  - destruct Hchat as (-> & _); [|reflexivity].
    split; [vm_compute; discriminate | reflexivity].
Defined.

(** ** Invariants of the runs *)

Section runs.

Context `{!Engine}.

Lemma chat_run_invariant (Allowed : LLMChat.Event → Prop)
    (Inv : LLMChat.State → Prop) (Good : LLMChat.Request → Prop) :
  (∀ ev c, Allowed ev → Inv c →
     Inv (LLMChat.handle ev c).1 ∧ Forall Good (LLMChat.handle ev c).2) →
  ∀ evs c, Forall Allowed evs → Inv c →
    Inv (LLMChat.run evs c).1 ∧ Forall Good (LLMChat.run evs c).2.
Proof.
  intros Hstep evs c Hevs. revert c.
  induction Hevs as [|ev evs Hev _ IH]; intros c Hinv; [by split|].
  simpl. destruct (Hstep ev c Hev Hinv) as [Hinv1 Hgood1].
  destruct (LLMChat.handle ev c) as [c1 out1]. simpl in *.
  destruct (IH c1 Hinv1) as [Hinv2 Hgood2].
  destruct (LLMChat.run evs c1) as [c2 out2]. simpl in *.
  split; [done | by apply Forall_app].
Qed.

Lemma query_run_invariant (Allowed : MultimodalRAG.Event → Prop)
    (Inv : MultimodalRAG.State → Prop) (Good : MultimodalRAG.Request → Prop) :
  (∀ ev r, Allowed ev → Inv r →
     Inv (MultimodalRAG.handle ev r).1
     ∧ Forall Good (MultimodalRAG.handle ev r).2) →
  ∀ evs r, Forall Allowed evs → Inv r →
    Inv (MultimodalRAG.run evs r).1 ∧ Forall Good (MultimodalRAG.run evs r).2.
Proof.
  intros Hstep evs r Hevs. revert r.
  induction Hevs as [|ev evs Hev _ IH]; intros r Hinv; [by split|].
  simpl. destruct (Hstep ev r Hev Hinv) as [Hinv1 Hgood1].
  destruct (MultimodalRAG.handle ev r) as [r1 out1]. simpl in *.
  destruct (IH r1 Hinv1) as [Hinv2 Hgood2].
  destruct (MultimodalRAG.run evs r1) as [r2 out2]. simpl in *.
  split; [done | by apply Forall_app].
Qed.

Lemma chat_send_budget (makeId : jsstring) (c : LLMChat.State) :
  (length (LLMChat.send makeId c).2
   + Runs.allowance (LLMChat.loading (LLMChat.send makeId c).1)
   ≤ Runs.allowance (LLMChat.loading c))%nat.
Proof.
  unfold LLMChat.send, Runs.allowance.
  destruct (nonempty (trim (LLMChat.draft c)));
    destruct (LLMChat.loading c) eqn:Hloading; simpl; rewrite ?Hloading; lia.
Qed.

Lemma loadModels_fulfilled_loading (mounted : bool) (res : AxiosResponse)
    (c : LLMChat.State) :
  LLMChat.loading (LLMChat.loadModels_fulfilled mounted res c)
  = LLMChat.loading c.
Proof.
  unfold LLMChat.loadModels_fulfilled, LLMChat.loadModels_catch.
  repeat case_match; done.
Qed.

Lemma loadModels_fulfilled_messages (mounted : bool) (res : AxiosResponse)
    (c : LLMChat.State) :
  LLMChat.messages (LLMChat.loadModels_fulfilled mounted res c)
  = LLMChat.messages c.
Proof.
  unfold LLMChat.loadModels_fulfilled, LLMChat.loadModels_catch.
  repeat case_match; done.
Qed.

(** A step that settles nothing spends from the allowance what it issues. *)
Lemma chat_step_budget (ev : LLMChat.Event) (c : LLMChat.State) :
  Trace.chat_settles ev = false →
  (length (LLMChat.handle ev c).2
   + Runs.allowance (LLMChat.loading (LLMChat.handle ev c).1)
   ≤ Runs.allowance (LLMChat.loading c))%nat.
Proof.
  intros Hev. destruct ev; try discriminate Hev; simpl.
  - done.
  - done.
  - by case_bool_decide.
  - apply chat_send_budget.
  - destruct (LLMChat.send_button_disabled c); [done | apply chat_send_budget].
  - done.
  - by rewrite loadModels_fulfilled_loading.
  - unfold LLMChat.loadModels_catch. by destruct mounted.
Qed.

Lemma query_send_budget (makeId : jsstring) (r : MultimodalRAG.State) :
  (length (MultimodalRAG.send makeId r).2
   + Runs.allowance (MultimodalRAG.loading (MultimodalRAG.send makeId r).1)
   ≤ Runs.allowance (MultimodalRAG.loading r))%nat.
Proof.
  unfold MultimodalRAG.send, Runs.allowance.
  destruct (nonempty (trim (MultimodalRAG.draft r)));
    destruct (MultimodalRAG.loading r) eqn:Hloading; simpl;
    rewrite ?Hloading; lia.
Qed.

Lemma query_step_budget (ev : MultimodalRAG.Event) (r : MultimodalRAG.State) :
  Trace.query_settles ev = false →
  (length (filter Trace.is_query (MultimodalRAG.handle ev r).2)
   + Runs.allowance (MultimodalRAG.loading (MultimodalRAG.handle ev r).1)
   ≤ Runs.allowance (MultimodalRAG.loading r))%nat.
Proof.
  intros Hev.
  assert (∀ makeId,
    length (filter Trace.is_query (MultimodalRAG.send makeId r).2)
    + Runs.allowance (MultimodalRAG.loading (MultimodalRAG.send makeId r).1)
    ≤ Runs.allowance (MultimodalRAG.loading r))%nat as Hsend.
  { intros makeId. pose proof (query_send_budget makeId r) as Hbudget.
    pose proof (length_filter (λ q, Trace.is_query q)
                  (MultimodalRAG.send makeId r).2). lia. }
  destruct ev; try discriminate Hev; simpl.
  - by destruct (MultimodalRAG.textarea_disabled r).
  - destruct (MultimodalRAG.textarea_disabled r); [done | apply Hsend].
  - destruct (MultimodalRAG.send_button_disabled r); [done | apply Hsend].
  - done.
  - destruct (MultimodalRAG.file_input_disabled r); [done|].
    unfold MultimodalRAG.handleFileUpload. repeat case_match; done.
  - unfold MultimodalRAG.handleFileUpload_fulfilled. repeat case_match; done.
  - done.
Qed.

(** X3.  At most one request is outstanding.  Over any sequence of events
    from any state, the chat requests issued are at most the settlements
    in the sequence, plus one when the component starts idle; in the
    multimodal component the same holds of the queries. *)
Theorem one_request_per_settlement
    (cevs : list LLMChat.Event) (c : LLMChat.State)
    (revs : list MultimodalRAG.Event) (r : MultimodalRAG.State) :
  (length (LLMChat.run cevs c).2
   ≤ Runs.chat_settlements cevs + Runs.allowance (LLMChat.loading c))%nat
  ∧ (length (filter Trace.is_query (MultimodalRAG.run revs r).2)
     ≤ Runs.query_settlements revs
       + Runs.allowance (MultimodalRAG.loading r))%nat.
Proof.
  split.
  - revert c. induction cevs as [|ev evs IH]; intros c; simpl; [lia|].
    specialize (IH (LLMChat.handle ev c).1).
    unfold Runs.chat_settlements in *.
    destruct (Trace.chat_settles ev) eqn:Hev;
      [rewrite filter_cons_True by (by rewrite Hev)
      |rewrite filter_cons_False by (rewrite Hev; intros [])].
    + assert ((LLMChat.handle ev c).2 = []) as Hout by by destruct ev.
      destruct (LLMChat.handle ev c) as [c1 out1]. simpl in *. subst out1.
      destruct (LLMChat.run evs c1) as [c2 out2]. simpl in *.
      simpl.
      destruct (LLMChat.loading c1), (LLMChat.loading c); simpl in *; lia.
    + pose proof (chat_step_budget ev c Hev) as Hstep.
      destruct (LLMChat.handle ev c) as [c1 out1]. simpl in *.
      destruct (LLMChat.run evs c1) as [c2 out2]. simpl in *.
      rewrite length_app. lia.
  - revert r. induction revs as [|ev evs IH]; intros r; simpl; [lia|].
    specialize (IH (MultimodalRAG.handle ev r).1).
    unfold Runs.query_settlements in *.
    destruct (Trace.query_settles ev) eqn:Hev;
      [rewrite filter_cons_True by (by rewrite Hev)
      |rewrite filter_cons_False by (rewrite Hev; intros [])].
    + assert ((MultimodalRAG.handle ev r).2 = []) as Hout by by destruct ev.
      destruct (MultimodalRAG.handle ev r) as [r1 out1]. simpl in *. subst out1.
      destruct (MultimodalRAG.run evs r1) as [r2 out2]. simpl in *.
      simpl.
      destruct (MultimodalRAG.loading r1), (MultimodalRAG.loading r);
        simpl in *; lia.
    + pose proof (query_step_budget ev r Hev) as Hstep.
      destruct (MultimodalRAG.handle ev r) as [r1 out1]. simpl in *.
      destruct (MultimodalRAG.run evs r1) as [r2 out2]. simpl in *.
      rewrite filter_app, length_app. lia.
Qed.

End runs.

(** ** What a run does to the transcript *)

Section transcript.

Context `{!Engine}.

Lemma Forall_tail_of {A} (P : A → Prop) (l : list A) :
  Forall P l → Forall P (tail l).
Proof. destruct 1; [constructor | done]. Qed.

Lemma request_tail_roles (c : LLMChat.State) (text : jsstring) :
  Forall (λ m, LLMChat.role m ≠ LLMChat.system) (LLMChat.messages c) →
  Forall (λ e, LLMChat.req_role e ≠ LLMChat.system)
    (tail (LLMChat.requestMessages c
           ++ [ {| LLMChat.req_role := LLMChat.user;
                   LLMChat.req_content := text |} ])).
Proof.
  intros Hroles. rewrite requestMessages_history.
  assert (Forall (λ e, LLMChat.req_role e ≠ LLMChat.system)
            ((Trace.entry <$> LLMChat.messages c)
             ++ [ {| LLMChat.req_role := LLMChat.user;
                     LLMChat.req_content := text |} ])) as Hrest.
  { apply Forall_app. split; [|by repeat constructor].
    apply Forall_fmap. by eapply Forall_impl. }
  unfold Trace.system_entry. case_decide; [by apply Forall_tail_of | done].
Qed.

Lemma chat_send_roles (makeId : jsstring) (c : LLMChat.State) :
  Forall (λ m, LLMChat.role m ≠ LLMChat.system) (LLMChat.messages c) →
  Forall (λ m, LLMChat.role m ≠ LLMChat.system)
    (LLMChat.messages (LLMChat.send makeId c).1)
  ∧ Forall (λ q, match q with
                 | LLMChat.PostChat _ entries =>
                     Forall (λ e, LLMChat.req_role e ≠ LLMChat.system)
                       (tail entries)
                 | LLMChat.GetModels => True
                 end) (LLMChat.send makeId c).2.
Proof.
  intros Hroles. unfold LLMChat.send.
  destruct (negb (nonempty (trim (LLMChat.draft c))) || LLMChat.loading c);
    simpl; [by split|].
  split.
  - apply Forall_app. split; [done | by repeat constructor].
  - constructor; [by apply request_tail_roles | constructor].
Qed.

(** X4.  The transcript never holds a system message: from a transcript
    without one, no sequence of events produces one.  So in every chat
    request issued on the way, a system entry can only be the first entry,
    the one made from the system prompt. *)
Theorem system_entry_only_first
    (evs : list LLMChat.Event) (c : LLMChat.State) :
  Forall (λ m, LLMChat.role m ≠ LLMChat.system) (LLMChat.messages c) →
  Forall (λ m, LLMChat.role m ≠ LLMChat.system)
    (LLMChat.messages (LLMChat.run evs c).1)
  ∧ Forall (λ q, match q with
                 | LLMChat.PostChat _ entries =>
                     Forall (λ e, LLMChat.req_role e ≠ LLMChat.system)
                       (tail entries)
                 | LLMChat.GetModels => True
                 end) (LLMChat.run evs c).2.
Proof.
  intros Hstart.
  apply (chat_run_invariant (λ _, True)
           (λ c', Forall (λ m, LLMChat.role m ≠ LLMChat.system)
                    (LLMChat.messages c'))
           (λ q, match q with
                 | LLMChat.PostChat _ entries =>
                     Forall (λ e, LLMChat.req_role e ≠ LLMChat.system)
                       (tail entries)
                 | LLMChat.GetModels => True
                 end)); [|by apply Forall_true|done].
  clear c Hstart. intros ev c _ Hroles. destruct ev; simpl.
  - by split.
  - by split.
  - split; [by case_bool_decide | done].
  - by apply chat_send_roles.
  - destruct (LLMChat.send_button_disabled c);
      [by split | by apply chat_send_roles].
  - by split.
  - split; [|done]. unfold LLMChat.send_fulfilled.
    case_match; simpl; [|done].
    apply Forall_app. split; [done | by repeat constructor].
  - by split.
  - by rewrite loadModels_fulfilled_messages.
  - split; [|done]. unfold LLMChat.loadModels_catch. by destruct mounted.
Qed.

Lemma chat_step_prefix (ev : LLMChat.Event) (c : LLMChat.State) :
  Runs.is_clear ev = false →
  LLMChat.messages c `prefix_of` LLMChat.messages (LLMChat.handle ev c).1.
Proof.
  intros Hev. destruct ev; try discriminate Hev; simpl; try done.
  - by case_bool_decide.
  - unfold LLMChat.send. case_match; simpl; [done | by apply prefix_app_r].
  - unfold LLMChat.send. destruct (LLMChat.send_button_disabled c); [done|].
    case_match; simpl; [done | by apply prefix_app_r].
  - unfold LLMChat.send_fulfilled.
    case_match; simpl; [by apply prefix_app_r | done].
  - by rewrite loadModels_fulfilled_messages.
  - unfold LLMChat.loadModels_catch. by destruct mounted.
Qed.

Lemma query_step_prefix (ev : MultimodalRAG.Event) (r : MultimodalRAG.State) :
  Runs.is_rag_clear ev = false →
  MultimodalRAG.messages r
    `prefix_of` MultimodalRAG.messages (MultimodalRAG.handle ev r).1.
Proof.
  intros Hev. destruct ev; try discriminate Hev; simpl; try done.
  - by destruct (MultimodalRAG.textarea_disabled r).
  - unfold MultimodalRAG.send.
    destruct (MultimodalRAG.textarea_disabled r); [done|].
    case_match; simpl; [done | by apply prefix_app_r].
  - unfold MultimodalRAG.send.
    destruct (MultimodalRAG.send_button_disabled r); [done|].
    case_match; simpl; [done | by apply prefix_app_r].
  - destruct (MultimodalRAG.file_input_disabled r); [done|].
    unfold MultimodalRAG.handleFileUpload. by repeat case_match.
  - unfold MultimodalRAG.handleFileUpload_fulfilled. by repeat case_match.
  - by apply prefix_app_r.
Qed.

(** X5.  Messages are only ever appended.  Over a sequence of events
    without a click on Clear, the transcript at the start is a prefix of
    the transcript at the end: no message is removed, edited or moved,
    whatever responses and failures arrive. *)
Theorem transcript_grows_without_clear
    (cevs : list LLMChat.Event) (c : LLMChat.State)
    (revs : list MultimodalRAG.Event) (r : MultimodalRAG.State) :
  (Forall (λ ev, Runs.is_clear ev = false) cevs →
   LLMChat.messages c `prefix_of` LLMChat.messages (LLMChat.run cevs c).1)
  ∧ (Forall (λ ev, Runs.is_rag_clear ev = false) revs →
     MultimodalRAG.messages r
       `prefix_of` MultimodalRAG.messages (MultimodalRAG.run revs r).1).
Proof.
  split.
  - intros Hevs.
    apply (chat_run_invariant (λ ev, Runs.is_clear ev = false)
             (λ c', LLMChat.messages c `prefix_of` LLMChat.messages c')
             (λ _, True)); [|done..].
    intros ev c' Hev Hprefix. split; [|by apply Forall_true].
    etrans; [exact Hprefix | by apply chat_step_prefix].
  - intros Hevs.
    apply (query_run_invariant (λ ev, Runs.is_rag_clear ev = false)
             (λ r', MultimodalRAG.messages r `prefix_of` MultimodalRAG.messages r')
             (λ _, True)); [|done..].
    intros ev r' Hev Hprefix. split; [|by apply Forall_true].
    etrans; [exact Hprefix | by apply query_step_prefix].
Qed.

(** X6.  Until a model list arrives, no model is selected and none is
    sent.  From the first render, over any sequence of events without a
    fulfilled model fetch (a failed fetch and changes of the selector among
    them), the selected model stays the empty string, no model is listed,
    and every chat request leaves its model field undefined. *)
Theorem no_model_before_discovery (evs : list LLMChat.Event) :
  Forall (λ ev, Runs.is_models_fulfilled ev = false) evs →
  LLMChat.model (LLMChat.run evs LLMChat.initial).1 = VString []
  ∧ LLMChat.availableModels (LLMChat.run evs LLMChat.initial).1 = []
  ∧ Forall (λ q, ∀ model entries,
               q = LLMChat.PostChat model entries → model = VUndefined)
      (LLMChat.run evs LLMChat.initial).2.
Proof.
  intros Hevs.
  destruct (chat_run_invariant
              (λ ev, Runs.is_models_fulfilled ev = false)
              (λ c, LLMChat.model c = VString []
                    ∧ LLMChat.availableModels c = [])
              (λ q, ∀ model entries,
                 q = LLMChat.PostChat model entries → model = VUndefined))
    with (evs := evs) (c := LLMChat.initial) as [[Hmodel Hlist] Hout];
    [|done|done|done].
  intros ev c Hev [Hmodel Hlist].
  assert (∀ makeId,
    (LLMChat.model (LLMChat.send makeId c).1 = VString []
     ∧ LLMChat.availableModels (LLMChat.send makeId c).1 = [])
    ∧ Forall (λ q, ∀ model entries,
                q = LLMChat.PostChat model entries → model = VUndefined)
        (LLMChat.send makeId c).2) as Hsend.
  { intros makeId. unfold LLMChat.send. case_match; simpl; [done|].
    split; [done|]. constructor; [|done].
    intros model entries [= <- _]. by rewrite Hmodel. }
  destruct ev; try discriminate Hev; simpl; try done.
  - by rewrite Hlist.
  - destruct (LLMChat.send_button_disabled c); [done | apply Hsend].
  - split; [|done]. unfold LLMChat.send_fulfilled. by case_match.
  - split; [|done]. unfold LLMChat.loadModels_catch. by destruct mounted.
Qed.

End transcript.

Lemma system_entry_only_first_witness :
  Forall (λ m, LLMChat.role m ≠ LLMChat.system)
    (LLMChat.messages
       (@LLMChat.run Sample.v8
          [LLMChat.DraftEnter Sample.id1;
           LLMChat.ChatFulfilled Sample.id2 Sample.answered]
          Sample.chat).1).
Proof.
  apply (@system_entry_only_first Sample.v8).
  repeat (constructor; [discriminate|]). constructor.
Defined.

Lemma transcript_grows_without_clear_witness :
  LLMChat.messages Sample.chat
    `prefix_of`
    LLMChat.messages
      (@LLMChat.run Sample.v8
         [LLMChat.DraftEnter Sample.id1;
          LLMChat.ChatRejected Sample.no_response;
          LLMChat.DraftChange (js "again"); LLMChat.DraftEnter Sample.id2]
         Sample.chat).1
  ∧ MultimodalRAG.messages Sample.rag
      `prefix_of`
      MultimodalRAG.messages
        (@MultimodalRAG.run Sample.v8
           [MultimodalRAG.SendClick Sample.id1;
            MultimodalRAG.QueryFulfilled Sample.id2 Sample.answered]
           Sample.rag).1.
Proof.
  split.
  - apply (@transcript_grows_without_clear Sample.v8 _ Sample.chat []
             Sample.rag).
    repeat constructor.
  - apply (@transcript_grows_without_clear Sample.v8 [] Sample.chat _
             Sample.rag).
    repeat constructor.
Defined.

Lemma no_model_before_discovery_witness :
  (@LLMChat.run Sample.v8
     [LLMChat.ModelsRejected true; LLMChat.ModelChange (js "llama3");
      LLMChat.DraftChange (js "hello"); LLMChat.DraftEnter Sample.id1]
     LLMChat.initial).2
  = [LLMChat.PostChat VUndefined
       [ {| LLMChat.req_role := LLMChat.system;
            LLMChat.req_content := js "You are a helpful assistant." |};
         {| LLMChat.req_role := LLMChat.user;
            LLMChat.req_content := js "hello" |} ]]
  ∧ LLMChat.model
      (@LLMChat.run Sample.v8
         [LLMChat.ModelsRejected true; LLMChat.ModelChange (js "llama3");
          LLMChat.DraftChange (js "hello"); LLMChat.DraftEnter Sample.id1]
         LLMChat.initial).1 = VString [].
Proof.
  split; [reflexivity|].
  apply (@no_model_before_discovery Sample.v8). repeat constructor.
Defined.

(** ** Settlements *)

Section settlements.

Context `{!Engine}.

Lemma not_blank_nonempty (draft : jsstring) :
  ¬ Runs.blank draft → nonempty (trim draft) = true.
Proof. rewrite nonempty_true, trim_blank. done. Qed.

(** X7.  Every settlement of a request, fulfilled or rejected, lowers the
    pending flag and keeps the draft, so the text typed while waiting is
    neither lost nor stuck: [send] accepts it right after. *)
Theorem settlement_reopens_submission
    (cev : LLMChat.Event) (c : LLMChat.State)
    (rev : MultimodalRAG.Event) (r : MultimodalRAG.State) (makeId : jsstring) :
  (Trace.chat_settles cev = true →
   let c' := (LLMChat.handle cev c).1 in
   LLMChat.loading c' = false
   ∧ LLMChat.draft c' = LLMChat.draft c
   ∧ (¬ Runs.blank (LLMChat.draft c) →
      length (LLMChat.send makeId c').2 = 1%nat))
  ∧ (Trace.query_settles rev = true →
     let r' := (MultimodalRAG.handle rev r).1 in
     MultimodalRAG.loading r' = false
     ∧ MultimodalRAG.draft r' = MultimodalRAG.draft r
     ∧ (¬ Runs.blank (MultimodalRAG.draft r) →
        length (MultimodalRAG.send makeId r').2 = 1%nat)).
Proof.
  split.
  - intros Hev. cbv zeta.
    assert (LLMChat.loading (LLMChat.handle cev c).1 = false
            ∧ LLMChat.draft (LLMChat.handle cev c).1 = LLMChat.draft c)
      as [Hidle Hdraft].
    { destruct cev; try discriminate Hev; simpl; [|done].
      unfold LLMChat.send_fulfilled. by case_match. }
    split; [done|]. split; [done|].
    intros Htext%not_blank_nonempty. unfold LLMChat.send.
    by rewrite Hdraft, Hidle, Htext.
  - intros Hev. cbv zeta.
    assert (MultimodalRAG.loading (MultimodalRAG.handle rev r).1 = false
            ∧ MultimodalRAG.draft (MultimodalRAG.handle rev r).1
              = MultimodalRAG.draft r) as [Hidle Hdraft].
    { by destruct rev; try discriminate Hev. }
    split; [done|]. split; [done|].
    intros Htext%not_blank_nonempty. unfold MultimodalRAG.send.
    by rewrite Hdraft, Hidle, Htext.
Qed.

(** X8.  A fulfilled chat response can still fail.  When its content has
    no rendering as text (an object with a [toString] member of its own,
    for one), nothing is appended to the transcript, an error is stored for
    display, and the pending flag is lowered all the same.  The query of
    the multimodal component has no such case: every fulfilled response
    appends one message and leaves the stored error alone. *)
Theorem unrenderable_content_fails
    (c : LLMChat.State) (r : MultimodalRAG.State) (makeId : jsstring)
    (res : AxiosResponse) :
  (toString (get (data res) "content" ?? VString [])%JS = None →
   LLMChat.messages (LLMChat.send_fulfilled makeId res c) = LLMChat.messages c
   ∧ truthy (LLMChat.error (LLMChat.send_fulfilled makeId res c)) = true
   ∧ LLMChat.loading (LLMChat.send_fulfilled makeId res c) = false)
  ∧ (∀ fields, get (data res) "content" = VObject fields →
       is_Some (fields !! js "toString") →
       toString (get (data res) "content" ?? VString [])%JS = None)
  ∧ length (MultimodalRAG.messages (MultimodalRAG.send_fulfilled makeId res r))
    = S (length (MultimodalRAG.messages r))
  ∧ MultimodalRAG.error (MultimodalRAG.send_fulfilled makeId res r)
    = MultimodalRAG.error r.
Proof.
  split; [|split; [|split]].
  - intros Hnone. unfold LLMChat.send_fulfilled. rewrite Hnone. simpl.
    split; [done|]. split; [apply failure_message_truthy | done].
  - intros fields -> Hown. simpl. by rewrite bool_decide_eq_true_2.
  - simpl. rewrite length_app. simpl. lia.
  - done.
Qed.

(** X9.  The model fetch is not fatal and not late.  Resumed after the
    component was unmounted it changes nothing, whatever the outcome; and
    when the response holds no array of models (a missing or malformed
    list), as when the fetch fails, the list of models is emptied while the
    selected model and everything else stay. *)
Theorem model_fetch_tolerant
    (c : LLMChat.State) (res : AxiosResponse) :
  LLMChat.loadModels_fulfilled false res c = c
  ∧ LLMChat.loadModels_catch false c = c
  ∧ LLMChat.loadModels_catch true c = LLMChat.setAvailableModels [] c
  ∧ ((∀ models, get (data res) "models" ≠ VArray models) →
     LLMChat.loadModels_fulfilled true res c = LLMChat.setAvailableModels [] c).
Proof.
  split; [|split; [done|split; [done|]]].
  - unfold LLMChat.loadModels_fulfilled, LLMChat.loadModels_catch.
    by repeat case_match.
  - intros Hmalformed. unfold LLMChat.loadModels_fulfilled.
    destruct (get (data res) "models") as [| | | | |models|] eqn:Hmodels;
      try done.
    by destruct (Hmalformed models).
Qed.

End settlements.

Lemma settlement_reopens_submission_witness :
  length
    (LLMChat.send Sample.id2
       (@LLMChat.handle Sample.v8 (LLMChat.ChatRejected Sample.no_response)
          (LLMChat.setDraft (js "again")
             (LLMChat.send Sample.id1 Sample.chat).1)).1).2 = 1%nat
  ∧ MultimodalRAG.loading
      (@MultimodalRAG.handle Sample.v8
         (MultimodalRAG.QueryFulfilled Sample.id2 Sample.answered)
         (MultimodalRAG.send Sample.id1 Sample.rag).1).1 = false.
Proof.
  destruct (@settlement_reopens_submission Sample.v8
              (LLMChat.ChatRejected Sample.no_response)
              (LLMChat.setDraft (js "again")
                 (LLMChat.send Sample.id1 Sample.chat).1)
              (MultimodalRAG.QueryFulfilled Sample.id2 Sample.answered)
              (MultimodalRAG.send Sample.id1 Sample.rag).1 Sample.id2)
    as [Hchat Hquery].
  split.
  - apply Hchat; [reflexivity|].
    intros Hblank. apply trim_blank in Hblank. discriminate Hblank.
  - apply Hquery. reflexivity.
Defined.

Lemma unrenderable_content_fails_witness :
  LLMChat.messages
    (@LLMChat.send_fulfilled Sample.v8 Sample.id2
       {| data := VObject {[ js "content" :=
                    VObject {[ js "toString" := VNumber (js "1") ]} ]} |}
       Sample.chat)
  = LLMChat.messages Sample.chat.
Proof.
  destruct (@unrenderable_content_fails Sample.v8 Sample.chat Sample.rag
              Sample.id2
              {| data := VObject {[ js "content" :=
                           VObject {[ js "toString" := VNumber (js "1") ]} ]} |})
    as (Hfails & Hown & _).
  apply Hfails.
  apply (Hown {[ js "toString" := VNumber (js "1") ]}); [reflexivity|].
  exists (VNumber (js "1")). reflexivity.
Defined.

Lemma model_fetch_tolerant_witness :
  LLMChat.loadModels_fulfilled true
    {| data := VObject {[ js "models" := VString (js "none") ]} |} Sample.chat
  = LLMChat.setAvailableModels [] Sample.chat.
Proof.
  apply (model_fetch_tolerant Sample.chat
           {| data := VObject {[ js "models" := VString (js "none") ]} |}).
  intros models Hmodels. discriminate Hmodels.
Defined.

(** ** What is on screen *)

Section views.

Context `{!Engine}.

(** X10.  The "Thinking" bubble of the chat is shown exactly when a request
    is pending and the transcript is not empty.  So it is shown right after
    an accepted submission, under the bubbles of the transcript and of the
    new message; and it is gone, with the request still pending, once the
    chat is cleared: the panel is back to its opening hint.  The loading
    dots of the multimodal component behave the same. *)
Theorem thinking_bubble_needs_transcript
    (c : LLMChat.State) (r : MultimodalRAG.State) (makeId : jsstring) :
  ((∃ bubbles, LLMChatView.panel c = LLMChatView.Conversation bubbles true)
   ↔ LLMChat.loading c = true ∧ LLMChat.messages c ≠ [])
  ∧ (Spec.accepted (LLMChat.draft c) (LLMChat.loading c) →
     (∃ bubbles,
        LLMChatView.panel (LLMChat.send makeId c).1
          = LLMChatView.Conversation bubbles true
        ∧ length bubbles = S (length (LLMChat.messages c)))
     ∧ LLMChatView.panel (LLMChat.clearChat (LLMChat.send makeId c).1)
       = LLMChatView.EmptyHint
     ∧ LLMChat.loading (LLMChat.clearChat (LLMChat.send makeId c).1) = true)
  ∧ (MultimodalRAGView.loading_dots r = true
     ↔ MultimodalRAG.loading r = true ∧ MultimodalRAG.messages r ≠ [])
  ∧ (Spec.accepted (MultimodalRAG.draft r) (MultimodalRAG.loading r) →
     MultimodalRAGView.loading_dots (MultimodalRAG.send makeId r).1 = true
     ∧ MultimodalRAGView.loading_dots
         (MultimodalRAG.clearChat (MultimodalRAG.send makeId r).1) = false
     ∧ MultimodalRAG.loading
         (MultimodalRAG.clearChat (MultimodalRAG.send makeId r).1) = true).
Proof.
  split; [|split; [|split]].
  - unfold LLMChatView.panel.
    destruct (LLMChat.messages c) as [|m rest] eqn:Hmessages; simpl.
    + split; [by intros [bubbles Hpanel] | by intros [_ ?]].
    + split.
      * intros [bubbles [= _ Hloading]]. done.
      * intros [-> _]. eauto.
  - intros Hacc%accepted_guard. unfold LLMChat.send. rewrite Hacc.
    unfold LLMChatView.panel. simpl. rewrite length_app. simpl.
    rewrite bool_decide_eq_false_2 by lia.
    split; [|done]. eexists. split; [reflexivity|].
    rewrite length_fmap, length_app. simpl. lia.
  - unfold MultimodalRAGView.loading_dots, MultimodalRAGView.empty_hint.
    destruct (MultimodalRAG.messages r) as [|m rest]; simpl.
    + split; [done | by intros [_ ?]].
    + split; [done | by intros [-> _]].
  - intros Hacc%accepted_guard. unfold MultimodalRAG.send. rewrite Hacc.
    unfold MultimodalRAGView.loading_dots, MultimodalRAGView.empty_hint.
    simpl. rewrite length_app. simpl.
    by rewrite bool_decide_eq_false_2 by lia.
Qed.

Lemma element_not_absent (v : value) : React.element v ≠ React.Absent.
Proof. unfold React.element. by destruct (React.child v). Qed.

Lemma banner_of_truthy (stored : value) :
  truthy stored = true →
  (if truthy stored then React.element stored else React.Absent)
    ≠ React.Absent
  ∧ (∀ text, stored = VString text →
       text ≠ []
       ∧ (if truthy stored then React.element stored else React.Absent)
         = React.Shown [text])
  ∧ (∀ fields, stored = VObject fields →
       (if truthy stored then React.element stored else React.Absent)
       = React.RenderThrows).
Proof.
  intros Htrue. rewrite Htrue. split; [apply element_not_absent|]. split.
  - intros text ->. split; [by apply nonempty_true | done].
  - by intros fields ->.
Qed.

(** X11.  The error banner follows the request.  After a rejected
    submission of either component it is never hidden: when the stored
    error is a string, the banner shows that string, which is not empty;
    when the stored error is a plain object (the [error] member of a
    payload such as [{error: {code: 1}}]), it is not a valid child and the
    render throws.  After an accepted submission and after a click on
    Clear the banner is hidden, whatever was stored before. *)
Theorem error_banner_follows_request
    (c : LLMChat.State) (r : MultimodalRAG.State) (makeId : jsstring)
    (error : AxiosError) :
  (LLMChatView.error_banner (LLMChat.send_rejected error c) ≠ React.Absent
   ∧ (∀ text, LLMChat.error (LLMChat.send_rejected error c) = VString text →
        text ≠ []
        ∧ LLMChatView.error_banner (LLMChat.send_rejected error c)
          = React.Shown [text])
   ∧ (∀ fields, LLMChat.error (LLMChat.send_rejected error c) = VObject fields →
        LLMChatView.error_banner (LLMChat.send_rejected error c)
        = React.RenderThrows))
  ∧ (MultimodalRAGView.error_banner (MultimodalRAG.send_rejected error r)
       ≠ React.Absent
     ∧ (∀ text,
          MultimodalRAG.error (MultimodalRAG.send_rejected error r)
            = VString text →
          text ≠ []
          ∧ MultimodalRAGView.error_banner (MultimodalRAG.send_rejected error r)
            = React.Shown [text])
     ∧ (∀ fields,
          MultimodalRAG.error (MultimodalRAG.send_rejected error r)
            = VObject fields →
          MultimodalRAGView.error_banner (MultimodalRAG.send_rejected error r)
          = React.RenderThrows))
  ∧ LLMChatView.error_banner (LLMChat.clearChat c) = React.Absent
  ∧ MultimodalRAGView.error_banner (MultimodalRAG.clearChat r) = React.Absent
  ∧ (Spec.accepted (LLMChat.draft c) (LLMChat.loading c) →
     LLMChatView.error_banner (LLMChat.send makeId c).1 = React.Absent)
  ∧ (Spec.accepted (MultimodalRAG.draft r) (MultimodalRAG.loading r) →
     MultimodalRAGView.error_banner (MultimodalRAG.send makeId r).1
     = React.Absent).
Proof.
  split; [|split; [|split; [done|split; [done|split]]]].
  - apply banner_of_truthy.
    exact (failure_message_truthy (interceptor_rejected error)).
  - apply banner_of_truthy.
    exact (rag_failure_message_truthy (interceptor_rejected error)).
  - intros Hacc%accepted_guard. unfold LLMChat.send. by rewrite Hacc.
  - intros Hacc%accepted_guard. unfold MultimodalRAG.send. by rewrite Hacc.
Qed.


End views.

(** ** Uploads, from the choice of a file to the settlement *)

Section upload_settlement.

Context `{!Engine}.

Lemma upload_step_budget (ev : MultimodalRAG.Event) (r : MultimodalRAG.State) :
  Runs.upload_settles ev = false →
  (length (filter Runs.is_process (MultimodalRAG.handle ev r).2)
   + Runs.allowance (MultimodalRAG.uploading (MultimodalRAG.handle ev r).1)
   ≤ Runs.allowance (MultimodalRAG.uploading r))%nat.
Proof.
  intros Hev.
  assert (∀ makeId,
    filter Runs.is_process (MultimodalRAG.send makeId r).2 = []
    ∧ MultimodalRAG.uploading (MultimodalRAG.send makeId r).1
      = MultimodalRAG.uploading r) as Hsend.
  { intros makeId. unfold MultimodalRAG.send. by case_match. }
  destruct ev; try discriminate Hev; simpl.
  - by destruct (MultimodalRAG.textarea_disabled r).
  - destruct (MultimodalRAG.textarea_disabled r); [done|].
    destruct (Hsend makeId) as [-> ->]. done.
  - destruct (MultimodalRAG.send_button_disabled r); [done|].
    destruct (Hsend makeId) as [-> ->]. done.
  - done.
  - unfold MultimodalRAG.file_input_disabled.
    destruct (MultimodalRAG.uploading r) eqn:Hup.
    + simpl. rewrite Hup. simpl. lia.
    + destruct files as [[|file others]|]; simpl; rewrite ?Hup; simpl;
        [lia| |lia].
      destruct (endsWith (toLowerCase (MultimodalRAG.name file)) (js ".pdf"));
        simpl; rewrite ?Hup; simpl; lia.
  - done.
  - done.
Qed.

(** X13.  At most one upload is outstanding.  The upload handler has no
    guard of its own, but the file input is disabled while uploading: over
    any sequence of events from any state, the uploads issued are at most
    the upload settlements in the sequence, plus one when the component
    starts with no upload in flight. *)
Theorem one_upload_per_settlement
    (evs : list MultimodalRAG.Event) (r : MultimodalRAG.State) :
  (length (filter Runs.is_process (MultimodalRAG.run evs r).2)
   ≤ Runs.upload_settlements evs
     + Runs.allowance (MultimodalRAG.uploading r))%nat.
Proof.
  revert r. induction evs as [|ev evs IH]; intros r; simpl; [lia|].
  specialize (IH (MultimodalRAG.handle ev r).1).
  unfold Runs.upload_settlements in *.
  destruct (Runs.upload_settles ev) eqn:Hev;
    [rewrite filter_cons_True by (by rewrite Hev)
    |rewrite filter_cons_False by (rewrite Hev; intros [])].
  - assert ((MultimodalRAG.handle ev r).2 = []) as Hout by by destruct ev.
    destruct (MultimodalRAG.handle ev r) as [r1 out1]. simpl in *. subst out1.
    destruct (MultimodalRAG.run evs r1) as [r2 out2]. simpl in *.
    destruct (MultimodalRAG.uploading r1), (MultimodalRAG.uploading r);
      simpl in *; lia.
  - pose proof (upload_step_budget ev r Hev) as Hstep.
    destruct (MultimodalRAG.handle ev r) as [r1 out1]. simpl in *.
    destruct (MultimodalRAG.run evs r1) as [r2 out2]. simpl in *.
    rewrite filter_app, length_app. lia.
Qed.

Lemma upload_failure_message (e : value) (r : MultimodalRAG.State) :
  MultimodalRAG.error (MultimodalRAG.handleFileUpload_catch e r) =
    Spec.first_available (Runs.upload_error_candidates e)
      (VString (js "Failed to upload and process PDF")).
Proof.
  unfold MultimodalRAG.handleFileUpload_catch.
  cbn [MultimodalRAG.error MultimodalRAG.setError].
  rewrite first_available_chain, !logical_or_assoc, string_guard_or. done.
Qed.

Lemma upload_failure_truthy (e : value) (r : MultimodalRAG.State) :
  truthy (MultimodalRAG.error (MultimodalRAG.handleFileUpload_catch e r)) = true.
Proof.
  unfold MultimodalRAG.handleFileUpload_catch.
  cbn [MultimodalRAG.error MultimodalRAG.setError].
  by apply logical_or_truthy_r.
Qed.

(** X14.  A rejected upload stores, as the error on display, the first
    available of the rejected payload when it is a string, its [error], its
    [details] (the field itself, not a field of it as for a chat failure)
    and its [message], and else "Failed to upload and process PDF"; the
    stored error is never the empty string.  The uploading flag is lowered
    and nothing else changes: no file is recorded as processed. *)
Theorem failed_upload_outcome (r : MultimodalRAG.State) (error : AxiosError) :
  let r' := MultimodalRAG.handleFileUpload_rejected error r in
  MultimodalRAG.error r' =
    Spec.first_available
      (Runs.upload_error_candidates (interceptor_rejected error))
      (VString (js "Failed to upload and process PDF"))
  ∧ MultimodalRAG.error r' ≠ VString []
  ∧ r' = MultimodalRAG.setUploading false
           (MultimodalRAG.setError (MultimodalRAG.error r') r).
Proof.
  cbv zeta. split; [|split].
  - apply upload_failure_message.
  - apply truthy_not_empty_string, upload_failure_truthy.
  - done.
Qed.

(** X15.  A fulfilled upload records one file.  With a body that is not
    nullish, the name recorded and announced is the body's [filename] when
    that is a non-empty string, and the chosen file's own name when the
    body has no [filename] that counts as true; the uploading flag is
    lowered and the stored error is left alone.  With a nullish body the
    handler fails instead: nothing is recorded or announced, an error is
    stored and the flag is lowered. *)
Theorem fulfilled_upload_outcome
    (r : MultimodalRAG.State) (file : MultimodalRAG.File) (res : AxiosResponse) :
  let r' := MultimodalRAG.handleFileUpload_fulfilled file res r in
  MultimodalRAG.uploading r' = false
  ∧ (∀ filename, get (data res) "filename" = VString filename → filename ≠ [] →
     MultimodalRAG.processedFiles r'
       = MultimodalRAG.processedFiles r ++ [VString filename]
     ∧ MultimodalRAGView.success_notice r'
       = Some (js "Successfully processed: " ++ filename)
     ∧ MultimodalRAG.error r' = MultimodalRAG.error r)
  ∧ (data res ≠ VUndefined → data res ≠ VNull →
     truthy (get (data res) "filename") = false →
     MultimodalRAG.processedFiles r'
       = MultimodalRAG.processedFiles r ++ [VString (MultimodalRAG.name file)]
     ∧ MultimodalRAGView.success_notice r'
       = Some (js "Successfully processed: " ++ MultimodalRAG.name file)
     ∧ MultimodalRAG.error r' = MultimodalRAG.error r)
  ∧ (data res = VUndefined ∨ data res = VNull →
     MultimodalRAG.processedFiles r' = MultimodalRAG.processedFiles r
     ∧ MultimodalRAG.uploadSuccess r' = MultimodalRAG.uploadSuccess r
     ∧ truthy (MultimodalRAG.error r') = true).
Proof.
  cbv zeta. split; [|split; [|split]].
  - unfold MultimodalRAG.handleFileUpload_fulfilled. by repeat case_match.
  - intros filename Hname Hfilled%nonempty_true.
    unfold MultimodalRAG.handleFileUpload_fulfilled.
    destruct (data res) eqn:Hbody; try discriminate Hname.
    rewrite Hname. unfold logical_or. simpl. rewrite Hfilled. done.
  - intros Hundef Hnull Hfalsy.
    unfold MultimodalRAG.handleFileUpload_fulfilled, logical_or.
    destruct (data res); try done; by rewrite Hfalsy.
  - unfold MultimodalRAG.handleFileUpload_fulfilled.
    intros [-> | ->]; (split; [done|]; split; [done|]);
      apply (upload_failure_truthy (TypeError ReadOfNullish) r).
Qed.

End upload_settlement.

Lemma fulfilled_upload_outcome_witness :
  MultimodalRAG.processedFiles
    (@MultimodalRAG.handleFileUpload_fulfilled Sample.v8 Sample.report_PDF
       {| data := VObject {[ js "filename" := VString (js "report-1.pdf") ]} |}
       Sample.rag_uploading)
  = [VString (js "report-1.pdf")]
  ∧ MultimodalRAGView.success_notice
      (@MultimodalRAG.handleFileUpload_fulfilled Sample.v8 Sample.report_PDF
         {| data := VObject ∅ |} Sample.rag_uploading)
    = Some (js "Successfully processed: Report.PDF")
  ∧ MultimodalRAG.processedFiles
      (@MultimodalRAG.handleFileUpload_fulfilled Sample.v8 Sample.report_PDF
         {| data := VNull |} Sample.rag_uploading) = [].
Proof.
  split; [|split].
  - destruct (@fulfilled_upload_outcome Sample.v8 Sample.rag_uploading
                Sample.report_PDF
                {| data := VObject {[ js "filename" :=
                                        VString (js "report-1.pdf") ]} |})
      as (_ & Hnamed & _).
    destruct (Hnamed (js "report-1.pdf")) as (-> & _);
      [reflexivity | discriminate | reflexivity].
  - destruct (@fulfilled_upload_outcome Sample.v8 Sample.rag_uploading
                Sample.report_PDF {| data := VObject ∅ |})
      as (_ & _ & Hunnamed & _).
    destruct Hunnamed as (_ & -> & _);
      [discriminate | discriminate | reflexivity | reflexivity].
  - destruct (@fulfilled_upload_outcome Sample.v8 Sample.rag_uploading
                Sample.report_PDF {| data := VNull |})
      as (_ & _ & _ & Hnull).
    destruct Hnull as (-> & _); [by right | reflexivity].
Defined.

Section independence.

Context `{!Engine}.

(** X16.  The chat and the upload of the multimodal component share the
    stored error and nothing else.  Over events that are no upload events,
    the uploading flag, the success notice and the list of processed files
    stay as they were and no upload is issued; over upload events (the
    choice of a file and the settlements), the transcript, the draft and
    the chat flag stay as they were and no query is issued. *)
Theorem chat_and_upload_independent
    (evs : list MultimodalRAG.Event) (r : MultimodalRAG.State) :
  (Forall (λ ev, Runs.is_upload ev = false) evs →
   (MultimodalRAG.uploading (MultimodalRAG.run evs r).1
      = MultimodalRAG.uploading r
    ∧ MultimodalRAG.uploadSuccess (MultimodalRAG.run evs r).1
      = MultimodalRAG.uploadSuccess r
    ∧ MultimodalRAG.processedFiles (MultimodalRAG.run evs r).1
      = MultimodalRAG.processedFiles r)
   ∧ Forall (λ q, Runs.is_process q = false) (MultimodalRAG.run evs r).2)
  ∧ (Forall (λ ev, Runs.is_upload ev = true) evs →
     (MultimodalRAG.messages (MultimodalRAG.run evs r).1
        = MultimodalRAG.messages r
      ∧ MultimodalRAG.draft (MultimodalRAG.run evs r).1 = MultimodalRAG.draft r
      ∧ MultimodalRAG.loading (MultimodalRAG.run evs r).1
        = MultimodalRAG.loading r)
     ∧ Forall (λ q, Trace.is_query q = false) (MultimodalRAG.run evs r).2).
Proof.
  split; intros Hevs.
  - apply (query_run_invariant (λ ev, Runs.is_upload ev = false)
             (λ r', MultimodalRAG.uploading r' = MultimodalRAG.uploading r
                    ∧ MultimodalRAG.uploadSuccess r'
                      = MultimodalRAG.uploadSuccess r
                    ∧ MultimodalRAG.processedFiles r'
                      = MultimodalRAG.processedFiles r)
             (λ q, Runs.is_process q = false)); [|done..].
    intros ev r' Hev (Hup & Hnotice & Hfiles).
    assert (∀ makeId,
      (MultimodalRAG.uploading (MultimodalRAG.send makeId r').1
         = MultimodalRAG.uploading r
       ∧ MultimodalRAG.uploadSuccess (MultimodalRAG.send makeId r').1
         = MultimodalRAG.uploadSuccess r
       ∧ MultimodalRAG.processedFiles (MultimodalRAG.send makeId r').1
         = MultimodalRAG.processedFiles r)
      ∧ Forall (λ q, Runs.is_process q = false)
          (MultimodalRAG.send makeId r').2) as Hsend.
    { intros makeId. unfold MultimodalRAG.send.
      case_match; simpl; [done|]. split; [done | by repeat constructor]. }
    destruct ev; try discriminate Hev; simpl.
    + by destruct (MultimodalRAG.textarea_disabled r').
    + destruct (MultimodalRAG.textarea_disabled r'); [done | apply Hsend].
    + destruct (MultimodalRAG.send_button_disabled r'); [done | apply Hsend].
    + done.
    + done.
    + done.
  - apply (query_run_invariant (λ ev, Runs.is_upload ev = true)
             (λ r', MultimodalRAG.messages r' = MultimodalRAG.messages r
                    ∧ MultimodalRAG.draft r' = MultimodalRAG.draft r
                    ∧ MultimodalRAG.loading r' = MultimodalRAG.loading r)
             (λ q, Trace.is_query q = false)); [|done..].
    intros ev r' Hev (Hmessages & Hdraft & Hloading).
    destruct ev; try discriminate Hev; simpl.
    + destruct (MultimodalRAG.file_input_disabled r'); [done|].
      unfold MultimodalRAG.handleFileUpload.
      repeat case_match; simpl; (split; [done | by repeat constructor]).
    + split; [|done].
      unfold MultimodalRAG.handleFileUpload_fulfilled. by repeat case_match.
    + done.
Qed.

End independence.

Lemma chat_and_upload_independent_witness :
  MultimodalRAG.uploading
    (@MultimodalRAG.run Sample.v8
       [MultimodalRAG.ClearClick;
        MultimodalRAG.QueryRejected Sample.no_response]
       Sample.rag_uploading).1 = true
  ∧ MultimodalRAG.messages
      (@MultimodalRAG.run Sample.v8
         [MultimodalRAG.FileChange (Some [Sample.report_PDF]);
          MultimodalRAG.UploadRejected Sample.quota_exceeded]
         Sample.rag).1 = MultimodalRAG.messages Sample.rag.
Proof.
  split.
  - destruct (@chat_and_upload_independent Sample.v8
                [MultimodalRAG.ClearClick;
                 MultimodalRAG.QueryRejected Sample.no_response]
                Sample.rag_uploading) as [Hchat _].
    destruct Hchat as [(-> & _) _]; [repeat constructor | reflexivity].
  - destruct (@chat_and_upload_independent Sample.v8
                [MultimodalRAG.FileChange (Some [Sample.report_PDF]);
                 MultimodalRAG.UploadRejected Sample.quota_exceeded]
                Sample.rag) as [_ Hupload].
    destruct Hupload as [(-> & _) _]; [repeat constructor | reflexivity].
Defined.

(** ** What the interceptor hands to a [catch] *)

Section interceptor.

(** X17.  The interceptor never rejects with a value that counts as false:
    a body that counts as true is handed on as it is, and anything else (no
    response, or a body that counts as false) is replaced by the text
    "Something went wrong".  A string handed to a [catch] is therefore
    never empty. *)
Theorem interceptor_never_falsy (error : AxiosError) :
  truthy (interceptor_rejected error) = true
  ∧ (truthy (response_data error) = true →
     interceptor_rejected error = response_data error)
  ∧ (truthy (response_data error) = false →
     interceptor_rejected error = VString (js "Something went wrong"))
  ∧ (response error = None →
     interceptor_rejected error = VString (js "Something went wrong"))
  ∧ (∀ text, interceptor_rejected error = VString text → text ≠ []).
Proof.
  assert (truthy (interceptor_rejected error) = true) as Htrue
    by (unfold interceptor_rejected; by apply logical_or_truthy_r).
  split; [done|]. split; [|split; [|split]].
  - intros Hbody. unfold interceptor_rejected, logical_or. by rewrite Hbody.
  - intros Hbody. unfold interceptor_rejected, logical_or. by rewrite Hbody.
  - intros Hnone. unfold interceptor_rejected, response_data.
    by rewrite Hnone.
  - intros text Htext. rewrite Htext in Htrue. by apply nonempty_true.
Qed.

Lemma logical_or_l (a b : value) : truthy a = true → (a || b)%JS = a.
Proof. intros Ha. unfold logical_or. by rewrite Ha. Qed.

Lemma string_guard_string (text : jsstring) :
  (typeof_string (VString text) && VString text)%JS = VString text.
Proof. done. Qed.

Lemma string_guard_object (fields : gmap jsstring value) (next : value) :
  ((typeof_string (VObject fields) && VObject fields) || next)%JS = next.
Proof. done. Qed.

(** X18.  What the server says is what is shown.  When the body of a failed
    response is a non-empty string, the chat, the query and the upload all
    store exactly that string; when it is an object whose [error] member
    counts as true, they all store that member, whatever the other members
    are. *)
Theorem server_message_shown_verbatim
    (c : LLMChat.State) (r : MultimodalRAG.State) (error : AxiosError) :
  (∀ text, response_data error = VString text → text ≠ [] →
     LLMChat.error (LLMChat.send_rejected error c) = VString text
     ∧ MultimodalRAG.error (MultimodalRAG.send_rejected error r) = VString text
     ∧ MultimodalRAG.error (MultimodalRAG.handleFileUpload_rejected error r)
       = VString text)
  ∧ (∀ fields shown, response_data error = VObject fields →
       fields !! js "error" = Some shown → truthy shown = true →
       LLMChat.error (LLMChat.send_rejected error c) = shown
       ∧ MultimodalRAG.error (MultimodalRAG.send_rejected error r) = shown
       ∧ MultimodalRAG.error (MultimodalRAG.handleFileUpload_rejected error r)
         = shown).
Proof.
  split.
  - intros text Hbody Htext%nonempty_true.
    assert (truthy (VString text) = true) as Htrue by done.
    assert (interceptor_rejected error = VString text) as Hcaught.
    { unfold interceptor_rejected. rewrite Hbody. by apply logical_or_l. }
    unfold LLMChat.send_rejected, MultimodalRAG.send_rejected,
      MultimodalRAG.handleFileUpload_rejected,
      LLMChat.send_catch, MultimodalRAG.send_catch,
      MultimodalRAG.handleFileUpload_catch,
      LLMChat.failure_message, MultimodalRAG.failure_message.
    cbn [LLMChat.error LLMChat.send_finally LLMChat.setLoading LLMChat.setError
         MultimodalRAG.error MultimodalRAG.send_finally
         MultimodalRAG.handleFileUpload_finally MultimodalRAG.setLoading
         MultimodalRAG.setUploading MultimodalRAG.setError].
    rewrite Hcaught, string_guard_string.
    by rewrite !(logical_or_l (VString text)) by done.
  - intros fields shown Hbody Hfield Hshown.
    assert (interceptor_rejected error = VObject fields) as Hcaught.
    { unfold interceptor_rejected. rewrite Hbody. by apply logical_or_l. }
    assert (get (VObject fields) "error" = shown) as Hget.
    { unfold get. by rewrite Hfield. }
    unfold LLMChat.send_rejected, MultimodalRAG.send_rejected,
      MultimodalRAG.handleFileUpload_rejected,
      LLMChat.send_catch, MultimodalRAG.send_catch,
      MultimodalRAG.handleFileUpload_catch,
      LLMChat.failure_message, MultimodalRAG.failure_message.
    cbn [LLMChat.error LLMChat.send_finally LLMChat.setLoading LLMChat.setError
         MultimodalRAG.error MultimodalRAG.send_finally
         MultimodalRAG.handleFileUpload_finally MultimodalRAG.setLoading
         MultimodalRAG.setUploading MultimodalRAG.setError].
    rewrite Hcaught, Hget, string_guard_object.
    by rewrite !(logical_or_l shown) by done.
Qed.

End interceptor.

Lemma interceptor_never_falsy_witness :
  interceptor_rejected Sample.quota_exceeded
  = VObject {[ js "error" := VString (js "quota exceeded") ]}
  ∧ interceptor_rejected Sample.empty_body = VString (js "Something went wrong")
  ∧ interceptor_rejected Sample.no_response
    = VString (js "Something went wrong").
Proof.
  split; [|split].
  - destruct (interceptor_never_falsy Sample.quota_exceeded) as (_ & Hkept & _).
    apply Hkept. reflexivity.
  - destruct (interceptor_never_falsy Sample.empty_body)
      as (_ & _ & Hreplaced & _).
    apply Hreplaced. reflexivity.
  - destruct (interceptor_never_falsy Sample.no_response)
      as (_ & _ & _ & Hnone & _).
    apply Hnone. reflexivity.
Defined.

Lemma server_message_shown_verbatim_witness :
  LLMChat.error
    (LLMChat.send_rejected
       {| response := Some {| data := VString (js "bad request") |} |}
       Sample.chat) = VString (js "bad request")
  ∧ MultimodalRAG.error
      (MultimodalRAG.handleFileUpload_rejected Sample.quota_exceeded
         Sample.rag_uploading) = VString (js "quota exceeded").
Proof.
  split.
  - destruct (server_message_shown_verbatim Sample.chat Sample.rag
                {| response := Some {| data := VString (js "bad request") |} |})
      as [Hstring _].
    destruct (Hstring (js "bad request")) as (-> & _);
      [reflexivity | discriminate | reflexivity].
  - destruct (server_message_shown_verbatim Sample.chat Sample.rag_uploading
                Sample.quota_exceeded) as [_ Hobject].
    destruct (Hobject {[ js "error" := VString (js "quota exceeded") ]}
                (VString (js "quota exceeded"))) as (_ & _ & ->);
      reflexivity.
Defined.

(** ** The role guard *)

Section role_guard.

Import RoleBasedGuard.

Lemma guard_children_iff
    (user : value) (hasContent : option bool) (roles : option (list jsstring)) :
  RoleBasedGuard user hasContent roles = Children
  ↔ roles = None
    ∨ ∃ listed role, roles = Some listed
                     ∧ get user "role" = VString role ∧ role ∈ listed.
Proof.
  unfold RoleBasedGuard. destruct roles as [listed|]; [|by split; eauto].
  unfold includes. split.
  - destruct (get user "role") as [| | | |role| |] eqn:Hrole;
      try by destruct (default false hasContent).
    case_bool_decide as Hin; simpl; [eauto 10|].
    by destruct (default false hasContent).
  - intros [? | (listed' & role & [= <-] & -> & Hin)]; [done|].
    by rewrite bool_decide_eq_true_2.
Qed.

(** X19.  The guard renders its children exactly when no list of roles is
    given, or the role of the user is a string that is in the list.  A
    user without a role, no user at all and a role that is not a string
    are all turned away as soon as a list is given. *)
Theorem guard_admits_listed_roles
    (user : value) (hasContent : option bool) (roles : option (list jsstring)) :
  RoleBasedGuard user hasContent roles = Children
  ↔ roles = None
    ∨ ∃ listed role, roles = Some listed
                     ∧ get user "role" = VString role ∧ role ∈ listed.
Proof.
  unfold RoleBasedGuard. destruct roles as [listed|]; [|by split; eauto].
  unfold includes. split.
  - destruct (get user "role") as [| | | |role| |] eqn:Hrole;
      try by destruct (default false hasContent).
    case_bool_decide as Hin; simpl; [eauto 10|].
    by destruct (default false hasContent).
  - intros [? | (listed' & role & [= <-] & -> & Hin)]; [done|].
    by rewrite bool_decide_eq_true_2.
Qed.

(** X20.  How the guard turns away.  An empty list of roles admits nobody,
    and a missing user is never admitted by a list.  What a refused user
    sees depends on [hasContent] alone: the denial page when it is set, and
    nothing otherwise.  Adding roles to the list never turns away a user
    who was admitted. *)
Theorem guard_denials
    (user : value) (hasContent : option bool) (listed more : list jsstring) :
  RoleBasedGuard user hasContent (Some []) ≠ Children
  ∧ RoleBasedGuard VNull hasContent (Some listed) ≠ Children
  ∧ (RoleBasedGuard user hasContent (Some listed) ≠ Children →
     RoleBasedGuard user hasContent (Some listed)
     = if default false hasContent then PermissionDenied else Nothing)
  ∧ (RoleBasedGuard user hasContent (Some listed) = Children →
     RoleBasedGuard user hasContent (Some (listed ++ more)) = Children).
Proof.
  split; [|split; [|split]].
  - rewrite guard_children_iff.
    intros [? | (listed' & role & [= <-] & _ & Hin)]; [done|].
    by apply not_elem_of_nil in Hin.
  - rewrite guard_children_iff.
    intros [? | (listed' & role & _ & Hrole & _)]; done.
  - unfold RoleBasedGuard.
    destruct (includes listed (get user "role")); simpl; [done|].
    by destruct (default false hasContent).
  - rewrite !guard_children_iff.
    intros [? | (listed' & role & [= <-] & Hrole & Hin)]; [done|].
    right. exists (listed ++ more), role. split; [done|]. split; [done|].
    apply elem_of_app. by left.
Qed.

End role_guard.

Lemma guard_admits_listed_roles_witness :
  RoleBasedGuard.RoleBasedGuard
    (VObject {[ js "role" := VString (js "admin") ]}) None
    (Some [js "editor"; js "admin"]) = RoleBasedGuard.Children
  ∧ (RoleBasedGuard.RoleBasedGuard
       (VObject {[ js "role" := VArray [VString (js "admin")] ]}) (Some true)
       (Some [js "admin"]) = RoleBasedGuard.Children → False).
Proof.
  split.
  - apply guard_admits_listed_roles. right.
    exists [js "editor"; js "admin"], (js "admin").
    split; [reflexivity|]. split; [reflexivity|].
    apply list_elem_of_In. right. left. reflexivity.
  - intros Hadmitted. apply guard_admits_listed_roles in Hadmitted.
    destruct Hadmitted as [Hnone | (listed & role & _ & Hrole & _)];
      [discriminate Hnone | discriminate Hrole].
Defined.

Lemma guard_denials_witness :
  RoleBasedGuard.RoleBasedGuard
    (VObject {[ js "role" := VString (js "user") ]}) (Some true)
    (Some [js "admin"]) = RoleBasedGuard.PermissionDenied
  ∧ RoleBasedGuard.RoleBasedGuard
      (VObject {[ js "role" := VString (js "admin") ]}) None
      (Some ([js "admin"] ++ [js "editor"])) = RoleBasedGuard.Children.
Proof.
  split.
  - destruct (guard_denials (VObject {[ js "role" := VString (js "user") ]})
                (Some true) [js "admin"] []) as (_ & _ & Hrefused & _).
    rewrite Hrefused; [reflexivity|]. discriminate.
  - destruct (guard_denials (VObject {[ js "role" := VString (js "admin") ]})
                None [js "admin"] [js "editor"]) as (_ & _ & _ & Hmore).
    apply Hmore. reflexivity.
Defined.

(** ** The theme classes *)

Section theme.

Import ThemeProvider.

#[local] Set Warnings "-clear-no-such-hyp".

Lemma theme_class_names :
  js "dark" ≠ js "blue" ∧ js "dark" ≠ js "block-transitions"
  ∧ js "blue" ≠ js "block-transitions".
Proof. repeat split; discriminate. Qed.

(** X21.  After [applyTheme] the document carries the class of the new
    theme and of no other: [dark] exactly for the dark theme, [blue]
    exactly for the blue one, and neither for the light one, whatever
    classes it carried before.  Every class other than these two and the
    transition block is left as it was, and the theme cell holds the new
    theme. *)
Theorem applyTheme_sets_one_theme_class
    (newTheme : Theme) (s : State) (class : jsstring) :
  theme (applyTheme newTheme s) = newTheme
  ∧ (js "dark" ∈ classList (applyTheme newTheme s) ↔ newTheme = dark)
  ∧ (js "blue" ∈ classList (applyTheme newTheme s) ↔ newTheme = blue)
  ∧ (class ≠ js "dark" → class ≠ js "blue" →
     class ≠ js "block-transitions" →
     (class ∈ classList (applyTheme newTheme s) ↔ class ∈ classList s)).
Proof.
  destruct theme_class_names as (Hdb & Hdt & Hbt).
  split; [done|].
  destruct newTheme; cbn [applyTheme blockTransitions classList theme_name];
    (split; [|split]); try set_solver.
Qed.

(** X22.  Of two changes of theme in a row the last one wins: classes and
    theme are those of the second change alone.  Each change sets a
    timeout, and the transition block is lifted by the first timeout that
    runs: after two quick changes the block is gone when the first timeout
    runs, with the second still to come, while the theme class stays. *)
Theorem last_theme_wins (first second : Theme) (s : State) :
  classList (applyTheme second (applyTheme first s))
  = classList (applyTheme second s)
  ∧ theme (applyTheme second (applyTheme first s)) = second
  ∧ timeouts (applyTheme second (applyTheme first s)) = S (S (timeouts s))
  ∧ (js "block-transitions"
       ∈ classList (applyTheme second (applyTheme first s)))
  ∧ (js "block-transitions"
       ∉ classList (timeout (applyTheme second (applyTheme first s))))
  ∧ timeouts (timeout (applyTheme second (applyTheme first s)))
    = S (timeouts s)
  ∧ (second ≠ light →
     theme_name second
       ∈ classList (timeout (applyTheme second (applyTheme first s)))).
Proof.
  destruct theme_class_names as (Hdb & Hdt & Hbt).
  assert (js "light" ≠ js "block-transitions") as Hlt by discriminate.
  destruct first, second;
    cbn [applyTheme blockTransitions timeout classList timeouts theme
         theme_name];
    repeat split; try done; try set_solver.
Qed.

End theme.

(** ** The login view *)

Section login.

Import LoginView.

Lemma heading_shown (s : State) :
  error_heading s ≠ React.Absent ↔ truthy (errorMsg s) = true.
Proof.
  unfold error_heading. destruct (truthy (errorMsg s)).
  - split; [done|]. intros _. apply element_not_absent.
  - split; [done | discriminate].
Qed.

(** X23.  After a failed login the form is back to its default values, and
    the error heading is rendered exactly when the value caught is a
    non-empty string, or has a [message] that counts as true; anything else
    is dropped without a word (an object that only has an [error] member,
    for one).  The heading shows the caught string, or the [message] when
    that is a non-empty string; when the [message] is a plain object it is
    not a valid child and the render throws.  For [null] and [undefined]
    the handler itself throws, and the message of an earlier failure
    stays. *)
Theorem login_failure_heading (error : value) (s : State) :
  email (onSubmit_catch error s) = defaultValues.1
  ∧ password (onSubmit_catch error s) = defaultValues.2
  ∧ (error ≠ VUndefined → error ≠ VNull →
     (error_heading (onSubmit_catch error s) ≠ React.Absent
      ↔ (∃ text, error = VString text ∧ text ≠ [])
        ∨ truthy (get error "message") = true))
  ∧ (∀ text, error = VString text → text ≠ [] →
     error_heading (onSubmit_catch error s) = React.Shown [text])
  ∧ (∀ fields text, error = VObject fields →
       get error "message" = VString text → text ≠ [] →
       error_heading (onSubmit_catch error s) = React.Shown [text])
  ∧ (∀ fields inner, error = VObject fields →
       get error "message" = VObject inner →
       error_heading (onSubmit_catch error s) = React.RenderThrows)
  ∧ (error = VUndefined ∨ error = VNull →
     errorMsg (onSubmit_catch error s) = errorMsg s).
Proof.
  split; [by destruct error|]. split; [by destruct error|].
  split; [|split; [|split; [|split]]].
  - intros Hundef Hnull. rewrite heading_shown.
    destruct error as [| |b|shown|text|elements|fields]; try done;
      cbn [onSubmit_catch errorMsg setErrorMsg reset].
    + split; [by right|].
      intros [(text & Heq & _) | Hmessage]; [discriminate Heq | done].
    + split; [by right|].
      intros [(text & Heq & _) | Hmessage]; [discriminate Heq | done].
    + cbn [truthy]. rewrite nonempty_true. split; [eauto|].
      intros [(text' & [= <-] & Hfilled) | Hmessage];
        [done | discriminate Hmessage].
    + split; [by right|].
      intros [(text & Heq & _) | Hmessage]; [discriminate Heq | done].
    + split; [by right|].
      intros [(text & Heq & _) | Hmessage]; [discriminate Heq | done].
  - intros text -> Htext%nonempty_true. unfold error_heading.
    cbn [onSubmit_catch errorMsg setErrorMsg reset truthy].
    by rewrite Htext.
  - intros fields text -> Hmessage Htext%nonempty_true. unfold error_heading.
    cbn [onSubmit_catch errorMsg setErrorMsg reset].
    rewrite Hmessage. cbn [truthy]. by rewrite Htext.
  - intros fields inner -> Hmessage. unfold error_heading.
    cbn [onSubmit_catch errorMsg setErrorMsg reset].
    by rewrite Hmessage.
  - by intros [-> | ->].
Qed.

End login.

Lemma applyTheme_sets_one_theme_class_witness :
  js "compact" ∈ ThemeProvider.classList
    (ThemeProvider.applyTheme ThemeProvider.blue
       {| ThemeProvider.theme := ThemeProvider.dark;
          ThemeProvider.classList := {[ js "dark"; js "compact" ]};
          ThemeProvider.timeouts := 0 |}).
Proof.
  apply (applyTheme_sets_one_theme_class ThemeProvider.blue
           {| ThemeProvider.theme := ThemeProvider.dark;
              ThemeProvider.classList := {[ js "dark"; js "compact" ]};
              ThemeProvider.timeouts := 0 |} (js "compact"));
    try discriminate.
  apply elem_of_union_r, elem_of_singleton. reflexivity.
Defined.

Lemma last_theme_wins_witness :
  js "blue" ∈ ThemeProvider.classList
    (ThemeProvider.timeout
       (ThemeProvider.applyTheme ThemeProvider.blue
          (ThemeProvider.applyTheme ThemeProvider.dark
             {| ThemeProvider.theme := ThemeProvider.light;
                ThemeProvider.classList := ∅;
                ThemeProvider.timeouts := 0 |}))).
Proof.
  apply (last_theme_wins ThemeProvider.dark ThemeProvider.blue
           {| ThemeProvider.theme := ThemeProvider.light;
              ThemeProvider.classList := ∅;
              ThemeProvider.timeouts := 0 |}).
  discriminate.
Defined.

Lemma login_failure_heading_witness :
  LoginView.error_heading
    (LoginView.onSubmit_catch (VString (js "Invalid credentials"))
       LoginView.initial) = React.Shown [js "Invalid credentials"]
  ∧ (LoginView.error_heading
       (LoginView.onSubmit_catch
          (VObject {[ js "error" := VString (js "Invalid credentials") ]})
          LoginView.initial) ≠ React.Absent → False)
  ∧ LoginView.error_heading
      (LoginView.onSubmit_catch
         (VObject {[ js "message" := VObject {[ js "code" := VNumber (js "401") ]} ]})
         LoginView.initial) = React.RenderThrows
  ∧ LoginView.errorMsg
      (LoginView.onSubmit_catch VNull
         (LoginView.setErrorMsg (VString (js "earlier")) LoginView.initial))
    = VString (js "earlier").
Proof.
  split; [|split; [|split]].
  - destruct (login_failure_heading (VString (js "Invalid credentials"))
                LoginView.initial) as (_ & _ & _ & Hstring & _).
    apply Hstring; [reflexivity | discriminate].
  - intros Hshown.
    destruct (login_failure_heading
                (VObject {[ js "error" := VString (js "Invalid credentials") ]})
                LoginView.initial) as (_ & _ & Hiff & _).
    apply Hiff in Hshown; [|discriminate|discriminate].
    destruct Hshown as [(text & Heq & _) | Hmessage];
      [discriminate Heq | discriminate Hmessage].
  - destruct (login_failure_heading
                (VObject {[ js "message" :=
                             VObject {[ js "code" := VNumber (js "401") ]} ]})
                LoginView.initial) as (_ & _ & _ & _ & _ & Hobject & _).
    eapply Hobject; reflexivity.
  - destruct (login_failure_heading VNull
                (LoginView.setErrorMsg (VString (js "earlier")) LoginView.initial))
      as (_ & _ & _ & _ & _ & _ & Hnull).
    apply Hnull. right. reflexivity.
Defined.

(** ** The processed files *)

Section processed_files.

Context `{!Engine}.




End processed_files.


(** ** The send buttons *)

Section send_buttons.

Context `{!Engine}.

(** X25.  The two send buttons differ while a request is pending.  The
    button of the chat is disabled then.  The button of the multimodal
    component is not, unless an upload is in flight: the [disabled] it is
    given replaces the one the loading button computes.  A click on it
    reaches [send], whose guard drops it: nothing changes and nothing is
    issued. *)
Theorem pending_query_keeps_button_enabled
    (c : LLMChat.State) (r : MultimodalRAG.State) (makeId : jsstring) :
  (LLMChat.loading c = true →
   LLMChat.send_button_disabled c = true
   ∧ LLMChat.handle (LLMChat.SendClick makeId) c = (c, []))
  ∧ (MultimodalRAG.loading r = true → MultimodalRAG.uploading r = false →
     MultimodalRAG.send_button_disabled r = false
     ∧ MultimodalRAG.textarea_disabled r = true
     ∧ MultimodalRAG.handle (MultimodalRAG.SendClick makeId) r
       = MultimodalRAG.send makeId r
     ∧ MultimodalRAG.send makeId r = (r, [])).
Proof.
  split.
  - intros Hpending. simpl.
    unfold LLMChat.send_button_disabled, LoadingButton.disabled. simpl.
    by rewrite Hpending.
  - intros Hpending Hidle. simpl.
    unfold MultimodalRAG.send_button_disabled, MultimodalRAG.textarea_disabled,
      LoadingButton.disabled. simpl.
    rewrite Hpending, Hidle. repeat split; try done.
    by apply query_send_pending.
Qed.

End send_buttons.

Lemma pending_query_keeps_button_enabled_witness :
  LLMChat.send_button_disabled (LLMChat.send Sample.id1 Sample.chat).1 = true
  ∧ MultimodalRAG.send_button_disabled
      (MultimodalRAG.send Sample.id1 Sample.rag).1 = false.
Proof.
  destruct (@pending_query_keeps_button_enabled Sample.v8
              (LLMChat.send Sample.id1 Sample.chat).1
              (MultimodalRAG.send Sample.id1 Sample.rag).1 Sample.id2)
    as [Hchat Hquery].
  split.
  - apply Hchat. reflexivity.
  - apply Hquery; reflexivity.
Defined.

Lemma thinking_bubble_needs_transcript_witness :
  LLMChatView.panel
    (LLMChat.clearChat (LLMChat.send Sample.id1 Sample.chat).1)
  = LLMChatView.EmptyHint
  ∧ MultimodalRAGView.loading_dots
      (MultimodalRAG.send Sample.id1 Sample.rag).1 = true.
Proof.
  destruct (thinking_bubble_needs_transcript Sample.chat Sample.rag Sample.id1)
    as (_ & Hchat & _ & Hquery).
  split.
  - apply Hchat. split; [vm_compute; discriminate | reflexivity].
  - apply Hquery. split; [vm_compute; discriminate | reflexivity].
Defined.

Lemma error_banner_follows_request_witness :
  LLMChatView.error_banner
    (LLMChat.send Sample.id1
       (LLMChat.setError (VString (js "quota exceeded")) Sample.chat)).1
  = React.Absent
  ∧ MultimodalRAGView.error_banner
      (MultimodalRAG.send_rejected Sample.quota_exceeded Sample.rag)
    = React.Shown [js "quota exceeded"]
  ∧ LLMChatView.error_banner
      (LLMChat.send_rejected
         {| response :=
              Some {| data :=
                VObject {[ js "error" :=
                  VObject {[ js "code" := VNumber (js "1") ]} ]} |} |}
         Sample.chat)
    = React.RenderThrows.
Proof.
  split; [|split].
  - destruct (error_banner_follows_request
                (LLMChat.setError (VString (js "quota exceeded")) Sample.chat)
                Sample.rag Sample.id1 Sample.no_response)
      as (_ & _ & _ & _ & Hchat & _).
    apply Hchat. split; [vm_compute; discriminate | reflexivity].
  - destruct (error_banner_follows_request Sample.chat Sample.rag Sample.id1
                Sample.quota_exceeded) as (_ & (_ & Hstring & _) & _).
    apply (Hstring (js "quota exceeded")). reflexivity.
  - destruct (error_banner_follows_request Sample.chat Sample.rag Sample.id1
                {| response :=
                     Some {| data :=
                       VObject {[ js "error" :=
                         VObject {[ js "code" := VNumber (js "1") ]} ]} |} |})
      as ((_ & _ & Hobject) & _).
    apply (Hobject {[ js "code" := VNumber (js "1") ]}). reflexivity.
Defined.

